(** * ecs_service: the reconciliation logic of cloud/amazon/ecs_service.py

    A shallow embedding of [EcsServiceManager] and [main] of the Ansible
    module, and the properties of its specification.

    The module is Python 2.  Its data are the dicts boto3 hands back, so the
    embedding keeps them as finite maps from keys to Python values, and the
    interpreter's own failures (a missing key, a subscript on None, an
    unbound local) are outcomes of the model like any other.  The remote
    control plane and the clock are the only effects: every call on them is
    recorded, in order, in a log. *)

From stdpp Require Import gmap strings list fin_maps pretty.

#[local] Set Warnings "-register-all".
#[local] Open Scope string_scope.

(** ** Python values *)

(** The values found in module parameters and in boto3 responses for the ECS
    service shapes: None, integers, text, timestamps (datetime objects,
    given by their epoch offset), lists and dicts with text keys. *)
Inductive value : Type :=
| VNone
| VInt (n : Z)
| VStr (s : string)
| VDatetime (t : Z)
| VList (l : list value)
| VDict (d : gmap string value).

Abbreviation dict := (gmap string value).

(** [==] on these values is structural: lists compare element by element, in
    order, and two dicts are equal when they have the same keys with equal
    values.  A [gmap] is extensional, so this is Leibniz equality. *)
#[global] Instance value_eq_dec : EqDecision value.
Proof.
  refine (fix go (x y : value) {struct x} : Decision (x = y) :=
    match x, y with
    | VNone, VNone => left _
    | VInt a, VInt b => cast_if (decide (a = b))
    | VStr a, VStr b => cast_if (decide (a = b))
    | VDatetime a, VDatetime b => cast_if (decide (a = b))
    | VList a, VList b => cast_if (@decide (a = b) (@list_eq_dec _ go a b))
    | VDict a, VDict b =>
        cast_if (@decide (a = b) (@gmap_eq_dec _ _ _ _ go a b))
    | _, _ => right _
    end); abstract congruence.
Defined.

Definition py_eq (a b : value) : bool := bool_decide (a = b).

(** The name Python prints for the type of a value, as used in the messages
    of TypeError and AttributeError. *)
Definition type_name (v : value) : string :=
  match v with
  | VNone => "NoneType"
  | VInt _ => "int"
  | VStr _ => "str"
  | VDatetime _ => "datetime.datetime"
  | VList _ => "list"
  | VDict _ => "dict"
  end.

(** Truth value testing: None, zero and empty containers are false. *)
Definition truthy (v : value) : bool :=
  match v with
  | VNone => false
  | VInt n => negb (n =? 0)%Z
  | VStr s => negb (String.eqb s EmptyString)
  | VDatetime _ => true
  | VList l => match l with [] => false | _ :: _ => true end
  | VDict d => negb (bool_decide (d = ∅))
  end.

(** [a or b] *)
Definition py_or (a b : value) : value := if truthy a then a else b.

(** An optional parameter as a Python value: None when unset. *)
Definition of_opt {A : Type} (inj : A → value) (o : option A) : value :=
  from_option inj VNone o.

(** [s.endswith(suffix)] *)
Definition endswith (s suffix : string) : bool :=
  String.prefix (String.rev suffix) (String.rev s).

(** [sub in s] for two strings: [sub] occurs somewhere in [s]. *)
Fixpoint is_substring (sub s : string) : bool :=
  String.prefix sub s ||
  match s with
  | EmptyString => false
  | String _ s' => is_substring sub s'
  end.

(** [a is b] for two ints computed at run time.  CPython keeps one shared
    object for each int from -5 to 256; every other int is a fresh object
    each time it is produced, so identity fails even for equal values. *)
Definition small_int (n : Z) : bool := (-5 <=? n)%Z && (n <=? 256)%Z.
Definition int_is (a b : Z) : bool := (a =? b)%Z && small_int a.

(** ** Exceptions *)

Inductive exception : Type :=
| StandardError (msg : string)
| KeyError (key : string)
| TypeError (msg : string)
| AttributeError (msg : string)
| UnboundLocalError (msg : string)
| IOError (msg : string)
| ClientError (msg : string)            (* botocore.exceptions.ClientError *)
| OtherException (cls msg : string).     (* any other subclass of Exception *)

(** [str(e)], also [e.message] for an exception built from one message. *)
Definition str_exception (e : exception) : string :=
  match e with
  | StandardError m | TypeError m | AttributeError m
  | UnboundLocalError m | IOError m | ClientError m => m
  | KeyError k => "'" +:+ k +:+ "'"
  | OtherException _ m => m
  end.

Definition is_ClientError (e : exception) : bool :=
  match e with ClientError _ => true | _ => false end.

(** Pure code that may raise. *)
Inductive except (A : Type) : Type :=
| Return (a : A)
| Raise (e : exception).
Arguments Return {A} a.
Arguments Raise {A} e.

#[global] Instance except_ret : MRet except := @Return.
#[global] Instance except_bind : MBind except := λ A B f m,
  match m with
  | Return a => f a
  | Raise e => Raise e
  end.

(** ** Operations of the interpreter on values *)

Definition not_subscriptable (v : value) : exception :=
  TypeError ("'" +:+ type_name v +:+ "' object has no attribute '__getitem__'").

(** [d[key]] with a text key. *)
Definition py_getitem (d : value) (key : string) : except value :=
  match d with
  | VDict m =>
      match m !! key with
      | Some v => Return v
      | None => Raise (KeyError key)
      end
  | VList _ => Raise (TypeError "list indices must be integers, not str")
  | VStr _ => Raise (TypeError "string indices must be integers, not str")
  | _ => Raise (not_subscriptable d)
  end.

(** [d[key] = v] with a text key. *)
Definition py_setitem (d : value) (key : string) (v : value) : except value :=
  match d with
  | VDict m => Return (VDict (<[key := v]> m))
  | VList _ => Raise (TypeError "list indices must be integers, not str")
  | _ =>
      Raise (TypeError ("'" +:+ type_name d +:+
                        "' object does not support item assignment"))
  end.

(** [key in d] with a text key: a key of a dict, an element of a list, a
    substring of a string. *)
Definition py_contains (key : string) (d : value) : except bool :=
  match d with
  | VDict m => Return (bool_decide (is_Some (m !! key)))
  | VList l => Return (bool_decide (VStr key ∈ l))
  | VStr s => Return (is_substring key s)
  | _ =>
      Raise (TypeError ("argument of type '" +:+ type_name d +:+
                        "' is not iterable"))
  end.

(** The elements [for x in v] runs through: a list's items, a string's
    characters, a dict's keys. *)
Definition py_iter (v : value) : except (list value) :=
  match v with
  | VList l => Return l
  | VStr s => Return ((λ c, VStr (String c EmptyString)) <$> String.list_ascii_of_string s)
  | VDict m => Return ((λ kv, VStr kv.1) <$> map_to_list m)
  | _ => Raise (TypeError ("'" +:+ type_name v +:+ "' object is not iterable"))
  end.

(** [d[key]] where [d] is None or a dict. *)
Definition subscript (d : option dict) (key : string) : except value :=
  match d with
  | None => Raise (not_subscriptable VNone)
  | Some m => py_getitem (VDict m) key
  end.

(** Truth value of a name bound to None or to a dict. *)
Definition exists_ (d : option dict) : bool := truthy (of_opt VDict d).

(** ** The module's input *)

Inductive state_choice : Type := present | absent | deleting.

(** [module.params], typed by the module's [argument_spec]: an optional
    parameter left out is None, [delay] and [repeat] default to 10. *)
Record Params : Type := {
  state : state_choice;
  name : string;
  cluster : option string;
  task_definition : option string;
  load_balancers : option (list value);
  desired_count : option Z;
  client_token : option string;
  role : option string;
  delay : Z;
  repeat : Z;
}.

Record AnsibleModule : Type := {
  params : Params;
  check_mode : bool;
}.

(** The result document handed to [exit_json]: [changed] and, when set, the
    keys [service] and [ansible_facts]. *)
Record Results : Type := {
  changed : bool;
  service : option dict;
  ansible_facts : option dict;
}.

Definition set_changed (b : bool) (r : Results) : Results :=
  {| changed := b; service := service r; ansible_facts := ansible_facts r |}.
Definition set_service (s : dict) (r : Results) : Results :=
  {| changed := changed r; service := Some s; ansible_facts := ansible_facts r |}.
Definition set_ansible_facts (s : dict) (r : Results) : Results :=
  {| changed := changed r; service := service r; ansible_facts := Some s |}.

(** ** The world outside: the ECS client and the clock *)

(** A call that leaves the process, with its keyword arguments. *)
Inductive call : Type :=
| DescribeServices (kwargs : dict)
| CreateService (kwargs : dict)
| UpdateService (kwargs : dict)
| DeleteService (kwargs : dict)
| Sleep (seconds : Z).

Definition is_describe (c : call) : bool :=
  match c with DescribeServices _ => true | _ => false end.
Definition is_sleep (c : call) : bool :=
  match c with Sleep _ => true | _ => false end.
Definition is_mutating (c : call) : bool :=
  match c with
  | CreateService _ | UpdateService _ | DeleteService _ => true
  | DescribeServices _ | Sleep _ => false
  end.

(** What [describe_services] returns: the keys [failures] and [services],
    each a list of dicts. *)
Record describe_response : Type := {
  failures : list dict;
  services : list dict;
}.

(** The remote side of one run.  [ecs_describe_services n kwargs] is the
    answer to the describe call issued after [n] earlier ones (the remote
    state moves between calls); create and update answer with the dict
    under [response['service']].  Any of them may raise instead.
    [str_object] is what [str()] gives for a datetime or a container. *)
Record world : Type := {
  ecs_describe_services : nat → dict → except describe_response;
  ecs_create_service : dict → except dict;
  ecs_update_service : dict → except dict;
  ecs_delete_service : dict → except unit;
  str_object : value → string;
}.

(** [str(v)] *)
Definition py_str (w : world) (v : value) : string :=
  match v with
  | VNone => "None"
  | VInt n => pretty n
  | VStr s => s
  | _ => str_object w v
  end.

(** ** Control: the log of calls, exceptions in flight, exits *)

(** How a run ends: [exit_json], [fail_json], or an exception nobody
    caught.  The first two leave through SystemExit, which
    [except Exception] does not catch. *)
Inductive outcome : Type :=
| ExitJson (r : Results)
| FailJson (msg : string)
| Raised (e : exception).

Definition M (A : Type) : Type := list call → (outcome + A) * list call.

#[global] Instance M_ret : MRet M := λ A a log, (inr a, log).
#[global] Instance M_bind : MBind M := λ A B f m log,
  match m log with
  | (inr a, log') => f a log'
  | (inl o, log') => (inl o, log')
  end.

Definition raise {A : Type} (e : exception) : M A := λ log, (inl (Raised e), log).
Definition exit_json {A : Type} (r : Results) : M A := λ log, (inl (ExitJson r), log).
Definition fail_json {A : Type} (msg : string) : M A := λ log, (inl (FailJson msg), log).

Definition lift {A : Type} (x : except A) : M A :=
  match x with
  | Return a => mret a
  | Raise e => raise e
  end.

(** [try: body except <classes>, e: handler] *)
Definition try_except {A : Type} (body : M A) (catches : exception → bool)
    (handler : exception → M A) : M A := λ log,
  match body log with
  | (inl (Raised e), log') =>
      if catches e then handler e log' else (inl (Raised e), log')
  | r => r
  end.

(** A remote call: recorded, then answered by the world. *)
Definition remote {A : Type} (c : call) (answer : except A) : M A := λ log,
  match answer with
  | Return a => (inr a, (log ++ [c])%list)
  | Raise e => (inl (Raised e), (log ++ [c])%list)
  end.

Definition describes_so_far (log : list call) : nat :=
  length (filter (λ c, is_describe c = true) log).

(** [time.sleep(seconds)]: a negative length is an IOError (EINVAL). *)
Definition sleep (seconds : Z) : M unit :=
  if (seconds <? 0)%Z then raise (IOError "[Errno 22] Invalid argument")
  else remote (Sleep seconds) (Return ()).

(** ** EcsServiceManager *)

(** [v.endswith(suffix)]: only text has the method. *)
Definition py_endswith (v : value) (suffix : string) : except bool :=
  match v with
  | VStr s => Return (endswith s suffix)
  | _ =>
      Raise (AttributeError ("'" +:+ type_name v +:+
                             "' object has no attribute 'endswith'"))
  end.

(** ["text" + v] *)
Definition str_add (a : string) (v : value) : except string :=
  match v with
  | VStr s => Return (a +:+ s)
  | _ =>
      Raise (TypeError ("cannot concatenate 'str' and '" +:+ type_name v +:+
                        "' objects"))
  end.

(** The first entry whose [field_name] ends with [service_name], or None. *)
Fixpoint find_in_array (array_of_services : list dict) (service_name : string)
    (field_name : string) : except (option dict) :=
  match array_of_services with
  | [] => Return None
  | c :: rest =>
      field ← py_getitem (VDict c) field_name;
      hit ← py_endswith field service_name;
      if hit : bool then Return (Some c)
      else find_in_array rest service_name field_name
  end.

(** [ecs_args.update(key=v)] under [if v is not None]. *)
Definition update_if_given (key : string) (v : option value) (args : dict) : dict :=
  match v with
  | Some x => <[key := x]> args
  | None => args
  end.

(** The tail of [describe_service]: look through the services found, and
    raise when the one asked for is not among them. *)
Definition look_through_found (service_name : string)
    (response : describe_response) : except (option dict) :=
  let unknown :=
    Raise (StandardError ("Unknown problem describing service " +:+
                          service_name +:+ ".")) in
  if bool_decide (0 < length (services response)) then
    c ← find_in_array (services response) service_name "serviceArn";
    if exists_ c then Return c else unknown
  else unknown.

(** [describe_service] from the response on.  [msg] is built and then not
    used, as in the source. *)
Definition describe_service_result (service_name : string)
    (response : describe_response) : except (option dict) :=
  if bool_decide (0 < length (failures response)) then
    c ← find_in_array (failures response) service_name "arn";
    reason ← subscript c "reason";
    msg ← str_add ", failure reason is " reason;
    if exists_ c && py_eq reason (VStr "MISSING") then Return None
    else look_through_found service_name response
  else look_through_found service_name response.

Definition describe_args (cluster_name : option string) (service_name : string)
    : dict :=
  update_if_given "cluster" (VStr <$> cluster_name)
    {[ "services" := VList [VStr service_name] ]}.

Definition describe_service (w : world) (cluster_name : option string)
    (service_name : string) : M (option dict) :=
  let kwargs := describe_args cluster_name service_name in
  response ← (λ log,
    remote (DescribeServices kwargs)
      (ecs_describe_services w (describes_so_far log) kwargs) log);
  lift (describe_service_result service_name response).

Definition is_matching_service (expected : Params) (existing : dict)
    : except bool :=
  taskDefinition ← py_getitem (VDict existing) "taskDefinition";
  if negb (py_eq (of_opt VStr (task_definition expected)) taskDefinition)
  then Return false else
  loadBalancers ← py_getitem (VDict existing) "loadBalancers";
  if negb (py_eq (py_or (of_opt VList (load_balancers expected)) (VList []))
                 loadBalancers)
  then Return false else
  desiredCount ← py_getitem (VDict existing) "desiredCount";
  if negb (py_eq (py_or (of_opt VInt (desired_count expected)) (VInt 0))
                 desiredCount)
  then Return false else
  Return true.

(** [if key in d: d[key] = str(d[key])] *)
Definition stringify (w : world) (key : string) (d : value) : except value :=
  has ← py_contains key d;
  if has : bool then
    v ← py_getitem d key;
    py_setitem d key (VStr (py_str w v))
  else Return d.

Fixpoint for_each {A : Type} (body : A → except A) (l : list A)
    : except (list A) :=
  match l with
  | [] => Return []
  | x :: rest =>
      x' ← body x;
      rest' ← for_each body rest;
      Return (x' :: rest')
  end.

(** [if field in service: for d in service[field]: body(d)], the body
    rewriting [d] in place; only a list holds items that can change. *)
Definition for_each_in (field : string) (body : value → except value)
    (service : dict) : except dict :=
  match service !! field with
  | None => Return service
  | Some collection =>
      items ← py_iter collection;
      items' ← for_each body items;
      Return (match collection with
              | VList _ => <[field := VList items']> service
              | _ => service
              end)
  end.

(** Datetime fields are turned into strings, so that the service can be
    serialised as JSON. *)
Definition jsonize (w : world) (service : dict) : except dict :=
  service ← for_each_in "deployments"
    (λ d, d ← stringify w "createdAt" d; stringify w "updatedAt" d) service;
  for_each_in "events" (stringify w "createdAt") service.

Definition create_service (w : world) (service_name : string)
    (cluster_name task_definition : option string)
    (load_balancers : option (list value)) (desired_count : option Z)
    (client_token role : option string) : M dict :=
  let ecs_args : dict :=
    {[ "serviceName" := VStr service_name;
       "taskDefinition" := of_opt VStr task_definition;
       "desiredCount" := of_opt VInt desired_count ]} in
  let ecs_args := update_if_given "cluster" (VStr <$> cluster_name) ecs_args in
  let ecs_args := update_if_given "loadBalancers" (VList <$> load_balancers) ecs_args in
  let ecs_args := update_if_given "clientToken" (VStr <$> client_token) ecs_args in
  let ecs_args := update_if_given "role" (VStr <$> role) ecs_args in
  response ← remote (CreateService ecs_args) (ecs_create_service w ecs_args);
  lift (jsonize w response).

Definition update_args (service_name : string)
    (cluster_name task_definition : option string) (desired_count : option Z)
    : dict :=
  let ecs_args : dict := {[ "service" := VStr service_name ]} in
  let ecs_args := update_if_given "cluster" (VStr <$> cluster_name) ecs_args in
  let ecs_args := update_if_given "taskDefinition" (VStr <$> task_definition) ecs_args in
  update_if_given "desiredCount" (VInt <$> desired_count) ecs_args.

Definition update_service (w : world) (service_name : string)
    (cluster_name task_definition : option string) (desired_count : option Z)
    : M dict :=
  let ecs_args :=
    update_args service_name cluster_name task_definition desired_count in
  response ← remote (UpdateService ecs_args) (ecs_update_service w ecs_args);
  lift (jsonize w response).

Definition delete_args (service : string) (cluster : option string) : dict :=
  update_if_given "cluster" (VStr <$> cluster) {[ "service" := VStr service ]}.

Definition delete_service (w : world) (service : string)
    (cluster : option string) : M unit :=
  let ecs_args := delete_args service cluster in
  remote (DeleteService ecs_args) (ecs_delete_service w ecs_args).

(** ** main *)

(** [del d[key]] *)
Definition py_delitem (d : dict) (key : string) : except dict :=
  match d !! key with
  | Some _ => Return (delete key d)
  | None => Raise (KeyError key)
  end.

(** ['status' in existing and existing['status'] == text] *)
Definition status_is (text : string) (existing : dict) : bool :=
  bool_decide (is_Some (existing !! "status")) &&
  bool_decide (existing !! "status" = Some (VStr text)).

(** [range(n)] *)
Definition range (n : Z) : list Z := Z.of_nat <$> seq 0 (Z.to_nat n).

(** The [for i in range(repeat)] loop of the deleting state, run over the
    indices still to come.  It hands back the loop variable as the loop left
    it (None while it was never bound) together with the results. *)
Fixpoint poll (w : world) (p : Params) (indices : list Z) (i : option Z)
    (results : Results) : M (option Z * Results) :=
  match indices with
  | [] => mret (i, results)
  | j :: rest =>
      existing ← describe_service w (cluster p) (name p);
      status ← lift (subscript existing "status");
      if py_eq status (VStr "INACTIVE") then
        mret (Some j, set_changed true results)
      else
        sleep (delay p);;
        poll w p rest (Some j) results
  end.

(** state=present, first half: is the service there, ACTIVE, and as
    asked?  Sets the flags [matching] and [update]; a matching service is
    put in the results. *)
Definition classify (w : world) (p : Params) (existing : option dict)
    (results : Results) : M (bool * bool * Results) :=
  match existing with
  | Some found =>
      if exists_ existing && status_is "ACTIVE" found then
        same ← lift (is_matching_service p found);
        if same : bool then
          jsonized ← lift (jsonize w found);
          mret (true, false, set_service jsonized results)
        else mret (false, true, results)
      else mret (false, false, results)
  | None => mret (false, false, results)
  end.

(** state=present, second half, under [if not module.check_mode]: the one
    update or create call. *)
Definition update_or_create (w : world) (p : Params) (update : bool) : M dict :=
  if update then
    update_service w (name p) (cluster p) (task_definition p) (desired_count p)
  else
    (if bool_decide (desired_count p = None) then
       fail_json "To create a service, a desired_count must be specified"
     else mret ());;
    (if bool_decide (task_definition p = None) then
       fail_json "To create a service, a task_definition must be specified"
     else mret ());;
    create_service w (name p) (cluster p) (task_definition p)
      (load_balancers p) (desired_count p) (client_token p) (role p).

Definition state_present (w : world) (module : AnsibleModule)
    (existing : option dict) (results : Results) : M Results :=
  let p := params module in
  '(matching, update, results) ← classify w p existing results;
  if negb matching then
    results ←
      (if negb (check_mode module) then
         response ← update_or_create w p update;
         mret (set_service response results)
       else mret results);
    mret (set_changed true results)
  else mret results.

Definition state_absent (w : world) (module : AnsibleModule)
    (existing : option dict) (results : Results) : M Results :=
  let p := params module in
  match existing with
  | Some found =>
      if negb (exists_ existing) then mret results
      else
        found ← lift (py_delitem found "deployments");
        found ← lift (py_delitem found "events");
        let results := set_ansible_facts found results in
        if status_is "INACTIVE" found then mret (set_changed false results)
        else
          (if negb (check_mode module) then
             try_except (delete_service w (name p) (cluster p))
               is_ClientError (λ e, fail_json (str_exception e))
           else mret ());;
          mret (set_changed true results)
  | None => mret results
  end.

Definition state_deleting (w : world) (module : AnsibleModule)
    (existing : option dict) (results : Results) : M Results :=
  let p := params module in
  if negb (exists_ existing) then
    fail_json ("Service '" +:+ name p +:+ " not found.")
  else
    sleep (delay p);;
    '(i, results) ← poll w p (range (repeat p)) None results;
    match i with
    | None =>
        raise (UnboundLocalError
                 "local variable 'i' referenced before assignment")
    | Some i =>
        if int_is i (repeat p - 1) then
          fail_json ("Service still not deleted after " +:+
                     py_str w (VInt (repeat p)) +:+ " tries of " +:+
                     py_str w (VInt (delay p)) +:+ " seconds each.")
        else mret results
    end.

Definition no_results : Results :=
  {| changed := false; service := None; ansible_facts := None |}.

(** The branch of [main] for the state asked for, from
    [results = dict(changed=False)]. *)
Definition in_state (w : world) (module : AnsibleModule)
    (existing : option dict) : M Results :=
  match state (params module) with
  | present => state_present w module existing no_results
  | absent => state_absent w module existing no_results
  | deleting => state_deleting w module existing no_results
  end.

(** The body of [main] from the first describe on, with boto and boto3
    importable and the client connected.  It only ever leaves through an
    exit or an exception. *)
Definition main_body (w : world) (module : AnsibleModule) : M Empty_set :=
  let p := params module in
  existing ←
    try_except (describe_service w (cluster p) (name p)) (λ _, true)
      (λ e, fail_json ("Exception describing service '" +:+ name p +:+
                       "' in cluster '" +:+
                       py_str w (of_opt VStr (cluster p)) +:+ "': " +:+
                       str_exception e));
  results ← in_state w module existing;
  exit_json results.

(** One run of the module: how it ends, and the calls it made, in order. *)
Definition main (w : world) (module : AnsibleModule) : outcome * list call :=
  match main_body w module [] with
  | (inl o, log) => (o, log)
  | (inr nothing, _) => match nothing with end
  end.

(** ** Vocabulary of the specification *)

(** What the [n]-th describe call of a run makes of the remote's answer:
    the value [describe_service] returns, or the exception it raises. *)
Definition fetched (w : world) (p : Params) (n : nat) : except (option dict) :=
  response ← ecs_describe_services w n (describe_args (cluster p) (name p));
  describe_service_result (name p) response.

(** The status read off the [n]-th describe: [existing['status']]. *)
Definition status_at (w : world) (p : Params) (n : nat) : except value :=
  existing ← fetched w p n;
  subscript existing "status".

Definition signal {A : Type} (x : except A) : outcome + A :=
  match x with
  | Return a => inr a
  | Raise e => inl (Raised e)
  end.

(** The describe call of a run: always for the same cluster and name. *)
Definition describe_call (p : Params) : call :=
  DescribeServices (describe_args (cluster p) (name p)).

(** How a run ends once the branch of its state is through. *)
Definition conclude (r : (outcome + Results) * list call) : outcome * list call :=
  match r with
  | (inl o, log) => (o, log)
  | (inr results, log) => (ExitJson results, log)
  end.

(** The service asked for is there and ACTIVE; otherwise state=present has
    to create it. *)
Definition active (existing : option dict) : bool :=
  match existing with
  | Some found => exists_ existing && status_is "ACTIVE" found
  | None => false
  end.

Definition is_dict (v : value) : bool :=
  match v with VDict _ => true | _ => false end.

Definition list_of_dicts (v : value) : bool :=
  match v with VList l => forallb is_dict l | _ => false end.

(** [deployments] and [events], where a service has them, are lists of
    dicts, as in the data model. *)
Definition stamped_lists (s : dict) : Prop :=
  ∀ field v, field ∈ ["deployments"; "events"] →
    s !! field = Some v → list_of_dicts v = true.

(** A computation only adds to the log, and only calls of kind [P]. *)
Definition appends {A : Type} (P : call → Prop) (m : M A) : Prop :=
  ∀ log, ∃ ext, (m log).2 = (log ++ ext)%list ∧ Forall P ext.

Definition quiet (c : call) : Prop := is_mutating c = false.

(** [k] rounds of the wait loop as they show in the log. *)
Definition rounds (k : nat) (round : list call) : list call :=
  concat (replicate k round).

(** The message of the wait loop when it gives up. *)
Definition timed_out (w : world) (p : Params) : string :=
  "Service still not deleted after " +:+ py_str w (VInt (repeat p)) +:+
  " tries of " +:+ py_str w (VInt (delay p)) +:+ " seconds each.".

Definition unbound_i : exception :=
  UnboundLocalError "local variable 'i' referenced before assignment".

(** The loop variable after the loop: the last index run through, or what
    it was before when there was none. *)
Definition last_index (indices : list Z) (i : option Z) : option Z :=
  match last indices with
  | Some j => Some j
  | None => i
  end.

(** ** Vocabulary of the further properties *)

(** An entry of a describe response that is about another service: its
    [field] is text that does not end with the name. *)
Definition about_another (service_name field_name : string) (c : dict) : Prop :=
  ∃ text, c !! field_name = Some (VStr text) ∧ endswith text service_name = false.

(** An entry about the service: its [field] is text ending with the name. *)
Definition about (service_name field_name : string) (c : dict) : Prop :=
  ∃ text, c !! field_name = Some (VStr text) ∧ endswith text service_name = true.

Definition mutating (c : call) : Prop := is_mutating c = true.

Definition mutations (log : list call) : nat :=
  length (filter mutating log).

Definition sleeps (log : list call) : nat :=
  length (filter (λ c, is_sleep c = true) log).

(** A computation adds at most [n] calls to the log, all of kind [P]. *)
Definition adds {A : Type} (P : call → Prop) (n : nat) (m : M A) : Prop :=
  ∀ log, ∃ ext, (m log).2 = (log ++ ext)%list ∧ Forall P ext ∧ (length ext ≤ n)%nat.

(** The keyword arguments [create_service] builds. *)
Definition create_args (service_name : string)
    (cluster_name task : option string) (lbs : option (list value))
    (count : option Z) (token role_name : option string) : dict :=
  update_if_given "role" (VStr <$> role_name)
    (update_if_given "clientToken" (VStr <$> token)
       (update_if_given "loadBalancers" (VList <$> lbs)
          (update_if_given "cluster" (VStr <$> cluster_name)
             {[ "serviceName" := VStr service_name;
                "taskDefinition" := of_opt VStr task;
                "desiredCount" := of_opt VInt count ]}))).

(** A computation does not leave through [exit_json]. *)
Definition stays {A : Type} (m : M A) : Prop :=
  ∀ log r, (m log).1 ≠ inl (ExitJson r).

(** [str(v)] as a value. *)
Definition as_text (w : world) (v : value) : value := VStr (py_str w v).

(** What [jsonize] makes of one deployment and of one event. *)
Definition stamp_deployment (w : world) (d : value) : value :=
  match d with
  | VDict m => VDict (alter (as_text w) "updatedAt" (alter (as_text w) "createdAt" m))
  | _ => d
  end.

Definition stamp_event (w : world) (d : value) : value :=
  match d with
  | VDict m => VDict (alter (as_text w) "createdAt" m)
  | _ => d
  end.

Definition on_items (f : value → value) (v : value) : value :=
  match v with
  | VList l => VList (f <$> l)
  | _ => v
  end.

(** [jsonize] in closed form, for services whose deployments and events
    are lists of dicts. *)
Definition jsonized (w : world) (s : dict) : dict :=
  alter (on_items (stamp_event w)) "events"
    (alter (on_items (stamp_deployment w)) "deployments" s).

(** The value under [key] in a dict, if any, is text. *)
Definition text_under (key : string) (d : value) : Prop :=
  match d with
  | VDict m => ∀ v, m !! key = Some v → ∃ text, v = VStr text
  | _ => False
  end.

(** ** Sample inputs *)

Module Sample.

Definition arn : string := "arn:aws:ecs:us-east-1:012345678910:service/web".

Definition deployment : value :=
  VDict {[ "id" := VStr "ecs-svc/1"; "createdAt" := VDatetime 1450000000;
           "updatedAt" := VDatetime 1450000060 ]}.

Definition event : value :=
  VDict {[ "id" := VStr "e1"; "createdAt" := VDatetime 1450000030;
           "message" := VStr "(service web) has reached a steady state." ]}.

(** A service as describe_services reports it: task definition web:1,
    two tasks, no load balancer. *)
Definition web (status : string) : dict :=
  {[ "serviceArn" := VStr arn; "serviceName" := VStr "web";
     "status" := VStr status; "taskDefinition" := VStr "web:1";
     "desiredCount" := VInt 2; "loadBalancers" := VList [];
     "deployments" := VList [deployment]; "events" := VList [event] ]}.

Definition found (s : dict) : describe_response :=
  {| failures := []; services := [s] |}.

Definition missing : describe_response :=
  {| failures := [ {[ "arn" := VStr arn; "reason" := VStr "MISSING" ]} ];
     services := [] |}.

(** A failure other than MISSING reported next to the service itself. *)
Definition degraded : describe_response :=
  {| failures := [ {[ "arn" := VStr arn; "reason" := VStr "UNAVAILABLE" ]} ];
     services := [web "ACTIVE"] |}.

(** A remote whose describe answers follow a script; create and update
    answer with the ACTIVE service, delete succeeds. *)
Definition remote (script : nat → describe_response) : world :=
  {| ecs_describe_services := λ n _, Return (script n);
     ecs_create_service := λ _, Return (web "ACTIVE");
     ecs_update_service := λ _, Return (web "ACTIVE");
     ecs_delete_service := λ _, Return ();
     str_object := λ _, "2015-12-13 09:46:40+00:00" |}.

Definition steady (status : string) : world := remote (λ _, found (web status)).

(** DRAINING until the [k]-th poll, INACTIVE from then on. *)
Definition draining_until (k : nat) : world :=
  remote (λ n, found (web (if bool_decide (n < k) then "DRAINING" else "INACTIVE"))).

Definition spec (st : state_choice) (task : option string) (count : option Z)
    (tries : Z) : Params :=
  {| state := st; name := "web"; cluster := None; task_definition := task;
     load_balancers := None; desired_count := count; client_token := None;
     role := None; delay := 5; repeat := tries |}.

Definition run (st : state_choice) (task : option string) (count : option Z)
    (tries : Z) (check : bool) : AnsibleModule :=
  {| params := spec st task count tries; check_mode := check |}.

End Sample.

(** * Properties *)

(** ** The classifier: [is_matching_service] *)

Lemma py_or_list (l : option (list value)) :
  py_or (of_opt VList l) (VList []) = VList (default [] l).
Proof. by destruct l as [[|x l]|]. Qed.

Lemma py_or_int (n : option Z) :
  py_or (of_opt VInt n) (VInt 0) = VInt (default 0%Z n).
Proof.
  destruct n as [n|]; [|done]. unfold py_or; simpl.
  destruct (Z.eqb_spec n 0) as [->|]; done.
Qed.

Lemma py_eq_true (a b : value) : py_eq a b = true ↔ a = b.
Proof. unfold py_eq. by rewrite bool_decide_eq_true. Qed.

Lemma py_eq_false (a b : value) : py_eq a b = false ↔ a ≠ b.
Proof. unfold py_eq. by rewrite bool_decide_eq_false. Qed.

(** The three tests of [is_matching_service] on a service that has the
    three keys: no KeyError, and the answer is their conjunction. *)
Lemma is_matching_service_eq (expected : Params) (existing : dict)
    (td lbs dc : value) :
  existing !! "taskDefinition" = Some td →
  existing !! "loadBalancers" = Some lbs →
  existing !! "desiredCount" = Some dc →
  is_matching_service expected existing =
    Return (py_eq (of_opt VStr (task_definition expected)) td
            && py_eq (VList (default [] (load_balancers expected))) lbs
            && py_eq (VInt (default 0%Z (desired_count expected))) dc).
Proof.
  intros Htd Hlbs Hdc. unfold is_matching_service, py_getitem.
  rewrite Htd, Hlbs, Hdc, py_or_list, py_or_int. simpl.
  by repeat (destruct (py_eq _ _); simpl).
Qed.

(** C4.  For every DesiredSpec and every existing service state (one that
    carries taskDefinition, loadBalancers and desiredCount),
    [is_matching_service] answers, and answers True exactly when the desired
    task_definition equals taskDefinition, the desired load_balancers (the
    empty list when unset) equal loadBalancers, and the desired desired_count
    (0 when unset) equals desiredCount.  Equality is [==] on Python values:
    structural, so sensitive to case and to the order of list entries. *)
Theorem is_matching_service_iff (expected : Params) (existing : dict)
    (td lbs dc : value) :
  existing !! "taskDefinition" = Some td →
  existing !! "loadBalancers" = Some lbs →
  existing !! "desiredCount" = Some dc →
  ∃ matching : bool,
    is_matching_service expected existing = Return matching ∧
    (matching = true ↔
       of_opt VStr (task_definition expected) = td ∧
       VList (default [] (load_balancers expected)) = lbs ∧
       VInt (default 0%Z (desired_count expected)) = dc).
Proof.
  intros Htd Hlbs Hdc. eexists. split.
  - by apply is_matching_service_eq.
  - rewrite !andb_true_iff, !py_eq_true. tauto.
Qed.

Lemma is_matching_service_iff_witness :
  Sample.web "ACTIVE" !! "taskDefinition" = Some (VStr "web:1") ∧
  Sample.web "ACTIVE" !! "loadBalancers" = Some (VList []) ∧
  Sample.web "ACTIVE" !! "desiredCount" = Some (VInt 2) ∧
  ∃ matching : bool,
    is_matching_service (Sample.spec present (Some "web:1") None 10)
      (Sample.web "ACTIVE") = Return matching ∧
    (matching = true ↔
       VStr "web:1" = VStr "web:1" ∧ VList [] = VList [] ∧ VInt 0 = VInt 2).
Proof.
  repeat split; try reflexivity.
  apply (is_matching_service_iff
           (Sample.spec present (Some "web:1") None 10) (Sample.web "ACTIVE"));
    reflexivity.
Defined.

(** Two load balancer lists with the same entries in another order do not
    match, nor do names that differ in case only. *)
Lemma load_balancers_order_and_case_matter :
  let lb (n : string) := VDict {[ "loadBalancerName" := VStr n;
                                  "containerName" := VStr "app";
                                  "containerPort" := VInt 80 ]} in
  let existing (l : list value) := <["loadBalancers" := VList l]> (Sample.web "ACTIVE") in
  let desired (l : list value) :=
    {| state := present; name := "web"; cluster := None;
       task_definition := Some "web:1"; load_balancers := Some l;
       desired_count := Some 2%Z; client_token := None; role := None;
       delay := 10; repeat := 10 |} in
  is_matching_service (desired [lb "a"; lb "b"]) (existing [lb "a"; lb "b"]) = Return true ∧
  is_matching_service (desired [lb "b"; lb "a"]) (existing [lb "a"; lb "b"]) = Return false ∧
  is_matching_service (desired [lb "A"; lb "b"]) (existing [lb "a"; lb "b"]) = Return false.
Proof. by vm_compute. Qed.

(** ** The fetcher: [describe_service] *)

(** What [find_in_array] finds is an entry of the array whose field ends
    with the name. *)
Lemma find_in_array_Some (array : list dict) (service_name field_name : string)
    (c : dict) :
  find_in_array array service_name field_name = Return (Some c) →
  c ∈ array ∧
  ∃ text, c !! field_name = Some (VStr text) ∧ endswith text service_name = true.
Proof.
  induction array as [|c0 array IH]; [done|]. simpl. unfold py_getitem.
  destruct (c0 !! field_name) as [v|] eqn:Hfield; [|done]. simpl.
  destruct v; try done. simpl.
  destruct (endswith s service_name) eqn:Hends.
  - intros [= <-]. split; [left|eauto].
  - intros [Hin Hc]%IH. split; [by right|done].
Qed.

Lemma exists_Some (s : dict) (k : string) (v : value) :
  s !! k = Some v → exists_ (Some s) = true.
Proof.
  intros Hk. unfold exists_. simpl. apply negb_true_iff, bool_decide_eq_false_2.
  intros ->. by rewrite lookup_empty in Hk.
Qed.

Lemma look_through_found_Some (service_name : string)
    (response : describe_response) (s : dict) :
  find_in_array (services response) service_name "serviceArn" = Return (Some s) →
  look_through_found service_name response = Return (Some s).
Proof.
  intros Hfind. unfold look_through_found.
  destruct (find_in_array_Some _ _ _ _ Hfind) as (Hin & text & Harn & _).
  rewrite bool_decide_eq_true_2.
  - rewrite Hfind. simpl. by rewrite (exists_Some s _ _ Harn).
  - destruct (services response); [by apply not_elem_of_nil in Hin | simpl; lia].
Qed.

Lemma look_through_found_None (service_name : string)
    (response : describe_response) :
  find_in_array (services response) service_name "serviceArn" = Return None →
  look_through_found service_name response =
    Raise (StandardError ("Unknown problem describing service " +:+
                          service_name +:+ ".")).
Proof.
  intros Hfind. unfold look_through_found. rewrite Hfind. simpl.
  by destruct (bool_decide _).
Qed.

(** [describe_service] never hands back an empty dict: what it returns is
    None or a service that tests true. *)
Lemma describe_service_result_true (service_name : string)
    (response : describe_response) (s : dict) :
  describe_service_result service_name response = Return (Some s) →
  exists_ (Some s) = true.
Proof.
  assert (look_through_found service_name response = Return (Some s) →
          exists_ (Some s) = true) as Hlook.
  { unfold look_through_found. destruct (bool_decide _); [|done].
    destruct (find_in_array _ _ _) as [c|]; [|done]. simpl.
    destruct (exists_ c) eqn:Hc; [|done]. by intros [= ->]. }
  unfold describe_service_result. destruct (bool_decide _); [|done].
  destruct (find_in_array _ _ _) as [c|]; [|done]. simpl.
  destruct (subscript c "reason") as [reason|]; [|done]. simpl.
  destruct (str_add _ reason); [|done]. simpl.
  by destruct (exists_ c && py_eq reason (VStr "MISSING")).
Qed.

(** A failure entry for the service, with a text reason: MISSING means
    absent, anything else falls through to the services found. *)
Lemma describe_service_result_failure (service_name : string)
    (response : describe_response) (c : dict) (reason : string) :
  failures response ≠ [] →
  find_in_array (failures response) service_name "arn" = Return (Some c) →
  c !! "reason" = Some (VStr reason) →
  describe_service_result service_name response =
    if bool_decide (reason = "MISSING") then Return None
    else look_through_found service_name response.
Proof.
  intros Hne Hfind Hreason. unfold describe_service_result.
  rewrite bool_decide_eq_true_2
    by (destruct (failures response); [done | simpl; lia]).
  rewrite Hfind. simpl. rewrite Hreason. simpl.
  rewrite (exists_Some c _ _ Hreason). simpl. unfold py_eq.
  case_bool_decide as H1; case_bool_decide as H2; congruence.
Qed.

(** C2, as the code has it.  Take any describe response with a failure
    entry for the service (the first whose arn ends with the name).  If its
    reason is MISSING the fetcher reports absence.  With any other reason it
    never reports absence: it goes on to the services of the response,
    returns the entry found there for the name, and raises an error only when
    there is none. *)
Theorem describe_failure_classification (service_name : string)
    (response : describe_response) (c : dict) (reason : string) :
  failures response ≠ [] →
  find_in_array (failures response) service_name "arn" = Return (Some c) →
  c !! "reason" = Some (VStr reason) →
  (reason = "MISSING" →
     describe_service_result service_name response = Return None) ∧
  (reason ≠ "MISSING" →
     describe_service_result service_name response ≠ Return None ∧
     (∀ s, find_in_array (services response) service_name "serviceArn"
             = Return (Some s) →
           describe_service_result service_name response = Return (Some s)) ∧
     (find_in_array (services response) service_name "serviceArn" = Return None →
      ∃ msg, describe_service_result service_name response
               = Raise (StandardError msg))).
Proof.
  intros Hne Hfind Hreason.
  pose proof (describe_service_result_failure _ _ _ _ Hne Hfind Hreason) as Hres.
  split; intros Hr.
  - by rewrite Hres, bool_decide_eq_true_2.
  - rewrite bool_decide_eq_false_2 in Hres by done. rewrite Hres.
    split; [|split].
    + unfold look_through_found. destruct (bool_decide _); [|done].
      destruct (find_in_array (services response) _ _) as [[s|]|]; try done.
      simpl.
      by destruct (exists_ (Some s)).
    + apply look_through_found_Some.
    + intros Hnone. rewrite look_through_found_None by done. eauto.
Qed.

Lemma describe_failure_classification_witness :
  describe_service_result "web" Sample.missing = Return None.
Proof.
  refine (proj1 (describe_failure_classification "web" Sample.missing
            {[ "arn" := VStr Sample.arn; "reason" := VStr "MISSING" ]}
            "MISSING" _ _ _) eq_refl); [discriminate | reflexivity | reflexivity].
Defined.

(** C2, as stated, fails: a failure entry whose reason is not MISSING, with
    the service itself among the services of the response, comes back as a
    found service, not as an error. *)
Lemma describe_failure_not_always_error :
  find_in_array (failures Sample.degraded) "web" "arn"
    = Return (Some {[ "arn" := VStr Sample.arn; "reason" := VStr "UNAVAILABLE" ]}) ∧
  describe_service_result "web" Sample.degraded = Return (Some (Sample.web "ACTIVE")).
Proof. split; reflexivity. Qed.

(** ** Running computations *)

Lemma run_bind {A B : Type} (m : M A) (f : A → M B) (log : list call) :
  (m ≫= f) log =
  match m log with
  | (inr a, log') => f a log'
  | (inl o, log') => (inl o, log')
  end.
Proof. reflexivity. Qed.

Lemma run_lift {A : Type} (x : except A) (log : list call) :
  lift x log = (signal x, log).
Proof. by destruct x. Qed.

Lemma run_remote {A : Type} (c : call) (answer : except A) (log : list call) :
  remote c answer log = (signal answer, log ++ [c])%list.
Proof. by destruct answer. Qed.

Lemma run_describe_service (w : world) (p : Params) (log : list call) :
  describe_service w (cluster p) (name p) log =
  (signal (fetched w p (describes_so_far log)), log ++ [describe_call p])%list.
Proof.
  unfold describe_service, fetched, describe_call.
  rewrite run_bind, run_remote.
  destruct (ecs_describe_services _ _ _) as [response|e]; [|done].
  simpl. by rewrite run_lift.
Qed.

Lemma run_sleep (seconds : Z) (log : list call) :
  (0 ≤ seconds)%Z → sleep seconds log = (inr (), log ++ [Sleep seconds])%list.
Proof.
  intros H. unfold sleep. destruct (Z.ltb_spec seconds 0); [lia|done].
Qed.

Lemma run_update_service (w : world) (p : Params) (log : list call) :
  let ecs_args :=
    update_args (name p) (cluster p) (task_definition p) (desired_count p) in
  update_service w (name p) (cluster p) (task_definition p) (desired_count p) log =
  (signal (response ← ecs_update_service w ecs_args; jsonize w response),
   log ++ [UpdateService ecs_args])%list.
Proof.
  intros ecs_args. unfold update_service. fold ecs_args.
  rewrite run_bind, run_remote.
  destruct (ecs_update_service w ecs_args) as [response|e]; [|done].
  simpl. by rewrite run_lift.
Qed.

Lemma describes_so_far_app (log ext : list call) :
  describes_so_far (log ++ ext) = describes_so_far log + describes_so_far ext.
Proof. unfold describes_so_far. by rewrite filter_app, length_app. Qed.

(** [main] after a first describe that went through. *)
Lemma main_fetched (w : world) (module : AnsibleModule) (existing : option dict) :
  fetched w (params module) 0 = Return existing →
  main w module =
    conclude (in_state w module existing [describe_call (params module)]).
Proof.
  intros Hfetch. unfold main, main_body.
  rewrite run_bind. unfold try_except.
  rewrite run_describe_service. change (describes_so_far []) with 0.
  rewrite Hfetch. simpl signal. cbv iota beta. simpl app.
  rewrite run_bind.
  by destruct (in_state w module existing _) as [[o|r] log'].
Qed.

(** [main] after a first describe that raised: the exception is caught and
    reported through [fail_json]. *)
Lemma main_fetch_failed (w : world) (module : AnsibleModule) (e : exception) :
  let p := params module in
  fetched w p 0 = Raise e →
  main w module =
    (FailJson ("Exception describing service '" +:+ name p +:+
               "' in cluster '" +:+ py_str w (of_opt VStr (cluster p)) +:+
               "': " +:+ str_exception e),
     [describe_call p]).
Proof.
  intros p Hfetch. unfold main, main_body.
  rewrite run_bind. unfold try_except.
  rewrite run_describe_service. change (describes_so_far []) with 0.
  fold p. rewrite Hfetch. reflexivity.
Qed.

Lemma fetched_true (w : world) (p : Params) (n : nat) (s : dict) :
  fetched w p n = Return (Some s) → exists_ (Some s) = true.
Proof.
  unfold fetched. destruct (ecs_describe_services _ _ _); [|done]. simpl.
  apply describe_service_result_true.
Qed.

(** ** [jsonize] on services shaped as the remote sends them *)

Lemma stringify_dict (w : world) (key : string) (m : dict) :
  ∃ m', stringify w key (VDict m) = Return (VDict m').
Proof.
  unfold stringify. simpl.
  destruct (m !! key) as [v|] eqn:Hk.
  - rewrite bool_decide_eq_true_2 by eauto. simpl. eauto.
  - rewrite bool_decide_eq_false_2 by (intros [? ?]; congruence). simpl. eauto.
Qed.

Lemma for_each_dicts (body : value → except value) (l : list value) :
  (∀ m, ∃ m', body (VDict m) = Return (VDict m')) →
  forallb is_dict l = true →
  ∃ l', for_each body l = Return l' ∧ forallb is_dict l' = true.
Proof.
  intros Hbody. induction l as [|x l IH]; intros Hl; simpl.
  - by exists [].
  - apply andb_true_iff in Hl as [Hx Hl].
    destruct x; try done.
    destruct (Hbody d) as [m' ->]. destruct (IH Hl) as (l' & -> & Hl').
    simpl. exists (VDict m' :: l'). by rewrite <- Hl'.
Qed.

Lemma for_each_in_dicts (field : string) (body : value → except value)
    (s : dict) :
  (∀ m, ∃ m', body (VDict m) = Return (VDict m')) →
  (∀ v, s !! field = Some v → list_of_dicts v = true) →
  ∃ s', for_each_in field body s = Return s' ∧
        ∀ k, k ≠ field → s' !! k = s !! k.
Proof.
  intros Hbody Hshape. unfold for_each_in.
  destruct (s !! field) as [v|] eqn:Hv; [|by exists s].
  specialize (Hshape v eq_refl). destruct v; try done. simpl in *.
  destruct (for_each_dicts body l Hbody Hshape) as (l' & -> & _). simpl.
  eexists. split; [done|]. intros k Hk. by rewrite lookup_insert_ne.
Qed.

(** On such a service [jsonize] raises nothing, and touches no key but
    deployments and events. *)
Lemma jsonize_total (w : world) (s : dict) :
  stamped_lists s →
  ∃ s', jsonize w s = Return s' ∧
        ∀ k, k ≠ "deployments" → k ≠ "events" → s' !! k = s !! k.
Proof.
  intros Hs. unfold jsonize.
  destruct (for_each_in_dicts "deployments"
              (λ d, d ← stringify w "createdAt" d; stringify w "updatedAt" d) s)
    as (s1 & -> & Hs1).
  - intros m. destruct (stringify_dict w "createdAt" m) as [m1 ->]. simpl.
    apply stringify_dict.
  - intros v. apply Hs. set_solver.
  - simpl.
    destruct (for_each_in_dicts "events" (stringify w "createdAt") s1)
      as (s2 & -> & Hs2); [apply stringify_dict| |].
    + intros v. rewrite Hs1 by done. apply Hs. set_solver.
    + eexists. split; [done|]. intros k Hd He. by rewrite Hs2, Hs1.
Qed.

(** ** state=present *)

Lemma status_is_eq (text : string) (s : dict) :
  status_is text s = bool_decide (s !! "status" = Some (VStr text)).
Proof.
  unfold status_is. destruct (s !! "status") as [v|].
  - by rewrite bool_decide_eq_true_2 by eauto.
  - rewrite (bool_decide_eq_false_2 (None = Some _)) by done.
    apply andb_false_r.
Qed.

Lemma active_status (s : dict) :
  s !! "status" = Some (VStr "ACTIVE") → active (Some s) = true.
Proof.
  intros Hs. unfold active.
  by rewrite (exists_Some s _ _ Hs), status_is_eq, bool_decide_eq_true_2.
Qed.

Lemma classify_matching (w : world) (p : Params) (found jsonized : dict)
    (results : Results) (log : list call) :
  active (Some found) = true →
  is_matching_service p found = Return true →
  jsonize w found = Return jsonized →
  classify w p (Some found) results log =
    (inr (true, false, set_service jsonized results), log).
Proof.
  intros Hactive Hsame Hjson. unfold classify.
  unfold active in Hactive. rewrite Hactive.
  rewrite run_bind, run_lift, Hsame. simpl.
  by rewrite run_bind, run_lift, Hjson.
Qed.

Lemma classify_update (w : world) (p : Params) (found : dict)
    (results : Results) (log : list call) :
  active (Some found) = true →
  is_matching_service p found = Return false →
  classify w p (Some found) results log = (inr (false, true, results), log).
Proof.
  intros Hactive Hsame. unfold classify.
  unfold active in Hactive. rewrite Hactive.
  by rewrite run_bind, run_lift, Hsame.
Qed.

Lemma classify_create (w : world) (p : Params) (existing : option dict)
    (results : Results) (log : list call) :
  active existing = false →
  classify w p existing results log = (inr (false, false, results), log).
Proof.
  intros Hactive. unfold classify. destruct existing as [found|]; [|done].
  unfold active in Hactive. by rewrite Hactive.
Qed.

(** Update needed or create needed: [classify] leaves [matching] False. *)
Lemma classify_change (w : world) (p : Params) (existing : option dict)
    (results : Results) (log : list call) :
  (active existing = false ∨
   ∃ found, existing = Some found ∧ active existing = true ∧
            is_matching_service p found = Return false) →
  ∃ update : bool,
    classify w p existing results log = (inr (false, update, results), log).
Proof.
  intros [Hcreate|(found & -> & Hactive & Hsame)].
  - exists false. by apply classify_create.
  - exists true. by apply classify_update.
Qed.

Lemma state_present_matching (w : world) (module : AnsibleModule)
    (found jsonized : dict) (log : list call) :
  active (Some found) = true →
  is_matching_service (params module) found = Return true →
  jsonize w found = Return jsonized →
  state_present w module (Some found) no_results log =
    (inr {| changed := false; service := Some jsonized; ansible_facts := None |},
     log).
Proof.
  intros Hactive Hsame Hjson. unfold state_present.
  by rewrite run_bind, (classify_matching _ _ _ jsonized).
Qed.

Lemma state_present_check_mode (w : world) (module : AnsibleModule)
    (existing : option dict) (update : bool) (log : list call) :
  check_mode module = true →
  classify w (params module) existing no_results log
    = (inr (false, update, no_results), log) →
  state_present w module existing no_results log =
    (inr {| changed := true; service := None; ansible_facts := None |}, log).
Proof.
  intros Hcheck Hclass. unfold state_present.
  rewrite run_bind, Hclass. simpl. by rewrite Hcheck.
Qed.

Lemma state_present_update (w : world) (module : AnsibleModule)
    (found : dict) (log : list call) :
  let p := params module in
  let ecs_args :=
    update_args (name p) (cluster p) (task_definition p) (desired_count p) in
  check_mode module = false →
  active (Some found) = true →
  is_matching_service p found = Return false →
  state_present w module (Some found) no_results log =
    (match response ← ecs_update_service w ecs_args; jsonize w response with
     | Return updated =>
         inr {| changed := true; service := Some updated; ansible_facts := None |}
     | Raise e => inl (Raised e)
     end, log ++ [UpdateService ecs_args])%list.
Proof.
  intros p ecs_args Hcheck Hactive Hsame. unfold state_present. fold p.
  rewrite run_bind, classify_update by done. simpl. rewrite Hcheck. simpl.
  rewrite !run_bind. unfold update_or_create.
  rewrite run_update_service. fold ecs_args.
  by destruct (_ ≫= _).
Qed.

Lemma state_present_create_refused (w : world) (module : AnsibleModule)
    (existing : option dict) (log : list call) :
  let p := params module in
  check_mode module = false →
  active existing = false →
  desired_count p = None ∨ task_definition p = None →
  state_present w module existing no_results log =
    (inl (FailJson
            (if bool_decide (desired_count p = None)
             then "To create a service, a desired_count must be specified"
             else "To create a service, a task_definition must be specified")),
     log).
Proof.
  intros p Hcheck Hactive Hunset. unfold state_present. fold p.
  rewrite run_bind, classify_create by done. simpl. rewrite Hcheck. simpl.
  rewrite !run_bind. unfold update_or_create.
  case_bool_decide as Hcount; [done|]. simpl.
  destruct Hunset as [?|Htask]; [done|].
  by rewrite run_bind, bool_decide_eq_true_2.
Qed.

(** The payload of an update, key by key. *)
Lemma update_args_lookup (service_name : string)
    (cluster_name task : option string) (count : option Z) :
  let payload := update_args service_name cluster_name task count in
  payload !! "service" = Some (VStr service_name) ∧
  payload !! "cluster" = VStr <$> cluster_name ∧
  payload !! "taskDefinition" = VStr <$> task ∧
  payload !! "desiredCount" = VInt <$> count ∧
  ∀ k, k ∉ ["service"; "cluster"; "taskDefinition"; "desiredCount"] →
       payload !! k = None.
Proof.
  unfold update_args, update_if_given.
  destruct cluster_name, task, count; simpl;
    (repeat split; [..| intros k Hk; repeat rewrite lookup_insert_ne by set_solver;
                        apply lookup_singleton_ne; set_solver]);
    by simplify_map_eq.
Qed.

(** ** What a computation adds to the log *)

Section Appends.
Context (P : call → Prop).

Lemma appends_ret {A : Type} (a : A) : appends P (mret a).
Proof. intros log. exists []. by rewrite app_nil_r. Qed.

Lemma appends_raise {A : Type} (e : exception) : appends P (@raise A e).
Proof. intros log. exists []. by rewrite app_nil_r. Qed.

Lemma appends_fail_json {A : Type} (msg : string) : appends P (@fail_json A msg).
Proof. intros log. exists []. by rewrite app_nil_r. Qed.

Lemma appends_lift {A : Type} (x : except A) : appends P (lift x).
Proof. destruct x; [apply appends_ret | apply appends_raise]. Qed.

Lemma appends_remote {A : Type} (c : call) (answer : except A) :
  P c → appends P (remote c answer).
Proof.
  intros Hc log. exists [c]. rewrite run_remote. split; [done|].
  by apply Forall_singleton.
Qed.

Lemma appends_bind {A B : Type} (m : M A) (f : A → M B) :
  appends P m → (∀ a, appends P (f a)) → appends P (m ≫= f).
Proof.
  intros Hm Hf log. destruct (Hm log) as (ext & Hlog & Hext).
  rewrite run_bind. destruct (m log) as [[o|a] log']; simpl in Hlog; subst log'.
  - by exists ext.
  - destruct (Hf a (log ++ ext)%list) as (ext' & Hlog' & Hext').
    exists (ext ++ ext')%list. split.
    + by rewrite Hlog', app_assoc.
    + by apply Forall_app.
Qed.

Lemma appends_try_except {A : Type} (body : M A) (catches : exception → bool)
    (handler : exception → M A) :
  appends P body → (∀ e, appends P (handler e)) →
  appends P (try_except body catches handler).
Proof.
  intros Hbody Hhandler log. destruct (Hbody log) as (ext & Hlog & Hext).
  unfold try_except.
  destruct (body log) as [[[r|msg|e]|a] log']; simpl in Hlog; subst log';
    try by exists ext.
  destruct (catches e); [|by exists ext].
  destruct (Hhandler e (log ++ ext)%list) as (ext' & Hlog' & Hext').
  exists (ext ++ ext')%list. split.
  - by rewrite Hlog', app_assoc.
  - by apply Forall_app.
Qed.

Lemma appends_sleep (seconds : Z) : P (Sleep seconds) → appends P (sleep seconds).
Proof.
  intros Hc. unfold sleep. destruct (_ <? _)%Z.
  - apply appends_raise.
  - by apply appends_remote.
Qed.

Lemma appends_describe_service (w : world) (cluster_name : option string)
    (service_name : string) :
  P (DescribeServices (describe_args cluster_name service_name)) →
  appends P (describe_service w cluster_name service_name).
Proof.
  intros Hc log. unfold describe_service. rewrite run_bind, run_remote.
  exists [DescribeServices (describe_args cluster_name service_name)].
  split; [|by apply Forall_singleton].
  destruct (ecs_describe_services _ _ _); [|done]. simpl. by rewrite run_lift.
Qed.

End Appends.

Lemma appends_poll (w : world) (p : Params) (indices : list Z) (i : option Z)
    (results : Results) :
  appends quiet (poll w p indices i results).
Proof.
  revert i. induction indices as [|j rest IH]; intros i; simpl.
  - apply appends_ret.
  - apply appends_bind; [by apply appends_describe_service|]. intros existing.
    apply appends_bind; [apply appends_lift|]. intros status.
    destruct (py_eq _ _); [apply appends_ret|].
    apply appends_bind; [by apply appends_sleep|]. intros _. apply IH.
Qed.

Lemma appends_classify (w : world) (p : Params) (existing : option dict)
    (results : Results) :
  appends quiet (classify w p existing results).
Proof.
  unfold classify. destruct existing as [found|]; [|apply appends_ret].
  destruct (_ && _); [|apply appends_ret].
  apply appends_bind; [apply appends_lift|]. intros [|]; [|apply appends_ret].
  apply appends_bind; [apply appends_lift|]. intros ?. apply appends_ret.
Qed.

(** In check mode no branch of [main] reaches a create, update or delete. *)
Lemma appends_in_state_check_mode (w : world) (module : AnsibleModule)
    (existing : option dict) :
  check_mode module = true → appends quiet (in_state w module existing).
Proof.
  intros Hcheck. unfold in_state. destruct (state (params module)).
  - unfold state_present. apply appends_bind; [apply appends_classify|].
    intros [[matching update] results]. rewrite Hcheck. simpl.
    destruct matching; simpl; [apply appends_ret|].
    apply appends_bind; intros; apply appends_ret.
  - unfold state_absent. destruct existing as [found|]; [|apply appends_ret].
    destruct (negb _); [apply appends_ret|].
    apply appends_bind; [apply appends_lift|]. intros found1.
    apply appends_bind; [apply appends_lift|]. intros found2.
    destruct (status_is _ _); [apply appends_ret|]. rewrite Hcheck. simpl.
    apply appends_bind; intros; apply appends_ret.
  - unfold state_deleting. destruct (negb _); [apply appends_fail_json|].
    apply appends_bind; [by apply appends_sleep|]. intros _.
    apply appends_bind; [apply appends_poll|]. intros [[i|] results].
    + destruct (int_is _ _); [apply appends_fail_json | apply appends_ret].
    + apply appends_raise.
Qed.

Lemma main_check_mode_quiet (w : world) (module : AnsibleModule) :
  check_mode module = true → Forall quiet (main w module).2.
Proof.
  intros Hcheck.
  destruct (fetched w (params module) 0) as [existing|e] eqn:Hfetch.
  - rewrite (main_fetched _ _ _ Hfetch).
    destruct (appends_in_state_check_mode w module existing Hcheck
                [describe_call (params module)]) as (ext & Hlog & Hext).
    destruct (in_state _ _ _ _) as [[o|r] log']; simpl in *; subst log';
      (apply Forall_cons; split; [done|apply Hext]).
  - rewrite (main_fetch_failed _ _ _ Hfetch). simpl. by apply Forall_singleton.
Qed.

(** C5.  For every DesiredSpec whose task_definition, load_balancers and
    desired_count match the existing ACTIVE service, a state=present run
    (dry or not) ends in [exit_json] with changed=false and the service as
    [jsonize] leaves it, and its only call is the first describe: no create,
    update or delete. *)
Theorem matching_service_left_alone (w : world) (module : AnsibleModule)
    (existing : dict) :
  let p := params module in
  state p = present →
  fetched w p 0 = Return (Some existing) →
  existing !! "status" = Some (VStr "ACTIVE") →
  existing !! "taskDefinition" = Some (of_opt VStr (task_definition p)) →
  existing !! "loadBalancers" = Some (VList (default [] (load_balancers p))) →
  existing !! "desiredCount" = Some (VInt (default 0%Z (desired_count p))) →
  stamped_lists existing →
  ∃ jsonized,
    jsonize w existing = Return jsonized ∧
    main w module =
      (ExitJson {| changed := false; service := Some jsonized;
                   ansible_facts := None |},
       [describe_call p]) ∧
    filter (λ c, is_mutating c = true) (main w module).2 = [].
Proof.
  intros p Hstate Hfetch Hstatus Htd Hlbs Hdc Hshape.
  destruct (jsonize_total w existing Hshape) as (jsonized & Hjson & _).
  exists jsonized. split; [done|].
  assert (main w module =
            (ExitJson {| changed := false; service := Some jsonized;
                         ansible_facts := None |}, [describe_call p])) as ->.
  { rewrite (main_fetched _ _ _ Hfetch). unfold in_state. fold p.
    rewrite Hstate, (state_present_matching _ _ _ jsonized); try done.
    - by apply active_status.
    - rewrite (is_matching_service_eq _ _ _ _ _ Htd Hlbs Hdc).
      unfold py_eq. by rewrite !bool_decide_eq_true_2. }
  done.
Qed.

Lemma matching_service_left_alone_witness :
  ∃ jsonized,
    jsonize (Sample.steady "ACTIVE") (Sample.web "ACTIVE") = Return jsonized ∧
    main (Sample.steady "ACTIVE")
         (Sample.run present (Some "web:1") (Some 2%Z) 10 false) =
      (ExitJson {| changed := false; service := Some jsonized;
                   ansible_facts := None |},
       [describe_call (Sample.spec present (Some "web:1") (Some 2%Z) 10)]) ∧
    filter (λ c, is_mutating c = true)
      (main (Sample.steady "ACTIVE")
            (Sample.run present (Some "web:1") (Some 2%Z) 10 false)).2 = [].
Proof.
  apply (matching_service_left_alone (Sample.steady "ACTIVE")
           (Sample.run present (Some "web:1") (Some 2%Z) 10 false)
           (Sample.web "ACTIVE")); try reflexivity.
  intros field v Hfield Hv.
  apply list_elem_of_In in Hfield. simpl in Hfield.
  destruct Hfield as [<-|[<-|[]]];
    vm_compute in Hv; injection Hv as <-; reflexivity.
Defined.

(** C7.  In check mode no run issues a create, update or delete, whatever
    its state and whatever the remote answers; and a state=present run whose
    classification is create-needed (the service is not there, or not
    ACTIVE) or update-needed (ACTIVE but not matching) ends in [exit_json]
    with changed=true and no service, after the first describe alone. *)
Theorem check_mode_only_reports (w : world) (module : AnsibleModule) :
  let p := params module in
  check_mode module = true →
  Forall quiet (main w module).2 ∧
  ∀ existing : option dict,
    state p = present →
    fetched w p 0 = Return existing →
    (active existing = false ∨
     ∃ found, existing = Some found ∧ active existing = true ∧
              is_matching_service p found = Return false) →
    main w module =
      (ExitJson {| changed := true; service := None; ansible_facts := None |},
       [describe_call p]).
Proof.
  intros p Hcheck. split; [by apply main_check_mode_quiet|].
  intros existing Hstate Hfetch Hchange.
  rewrite (main_fetched _ _ _ Hfetch). unfold in_state. fold p. rewrite Hstate.
  destruct (classify_change w p existing no_results [describe_call p] Hchange)
    as [update Hclass].
  by rewrite (state_present_check_mode _ _ _ update).
Qed.

Lemma check_mode_only_reports_witness :
  Forall quiet
    (main (Sample.steady "ACTIVE")
          (Sample.run present (Some "web:2") (Some 2%Z) 10 true)).2 ∧
  main (Sample.steady "ACTIVE")
       (Sample.run present (Some "web:2") (Some 2%Z) 10 true) =
    (ExitJson {| changed := true; service := None; ansible_facts := None |},
     [describe_call (Sample.spec present (Some "web:2") (Some 2%Z) 10)]).
Proof.
  destruct (check_mode_only_reports (Sample.steady "ACTIVE")
              (Sample.run present (Some "web:2") (Some 2%Z) 10 true) eq_refl)
    as [Hquiet Hreport].
  split; [exact Hquiet|].
  apply (Hreport (Some (Sample.web "ACTIVE"))); [reflexivity|reflexivity|].
  right. exists (Sample.web "ACTIVE"). repeat split; reflexivity.
Defined.

(** C6, as the code has it.  Outside check mode, whenever creation is
    needed (the service is not there, or not ACTIVE) and desired_count or
    task_definition is unset, the run fails through [fail_json] with the
    message naming the missing parameter; its only call is the first
    describe, so the remote create is never reached. *)
Theorem create_refused_without_required (w : world) (module : AnsibleModule)
    (existing : option dict) :
  let p := params module in
  state p = present →
  check_mode module = false →
  fetched w p 0 = Return existing →
  active existing = false →
  desired_count p = None ∨ task_definition p = None →
  main w module =
    (FailJson
       (if bool_decide (desired_count p = None)
        then "To create a service, a desired_count must be specified"
        else "To create a service, a task_definition must be specified"),
     [describe_call p]).
Proof.
  intros p Hstate Hcheck Hfetch Hactive Hunset.
  rewrite (main_fetched _ _ _ Hfetch). unfold in_state. fold p. rewrite Hstate.
  by rewrite state_present_create_refused.
Qed.

Lemma create_refused_without_required_witness :
  main (Sample.remote (λ _, Sample.missing))
       (Sample.run present (Some "web:1") None 10 false) =
    (FailJson "To create a service, a desired_count must be specified",
     [describe_call (Sample.spec present (Some "web:1") None 10)]).
Proof.
  apply (create_refused_without_required (Sample.remote (λ _, Sample.missing))
           (Sample.run present (Some "web:1") None 10 false) None);
    try reflexivity.
  left. reflexivity.
Defined.

(** C6, as stated, fails in check mode: with the service missing and
    desired_count unset the run does not fail, it exits with changed=true. *)
Lemma create_in_check_mode_does_not_fail :
  fetched (Sample.remote (λ _, Sample.missing))
          (Sample.spec present (Some "web:1") None 10) 0 = Return None ∧
  desired_count (Sample.spec present (Some "web:1") None 10) = None ∧
  main (Sample.remote (λ _, Sample.missing))
       (Sample.run present (Some "web:1") None 10 true) =
    (ExitJson {| changed := true; service := None; ansible_facts := None |},
     [describe_call (Sample.spec present (Some "web:1") None 10)]).
Proof. repeat split; reflexivity. Qed.

(** C3, as the code has it.  Outside check mode, for every DesiredSpec that
    differs from the existing ACTIVE service in exactly one of
    task_definition and desired_count, a state=present run issues, after the
    first describe, exactly one call: an update.  Its payload has the
    service name, the cluster when one is given, and each of task_definition
    and desired_count that is set in the DesiredSpec, whether it differs or
    not; a field is left out only when it is unset.  The run then exits with
    changed=true and the updated service, unless the update raises. *)
Theorem update_sends_what_is_set (w : world) (module : AnsibleModule)
    (existing : dict) (td lbs dc : value) :
  let p := params module in
  state p = present →
  check_mode module = false →
  fetched w p 0 = Return (Some existing) →
  existing !! "status" = Some (VStr "ACTIVE") →
  existing !! "taskDefinition" = Some td →
  existing !! "loadBalancers" = Some lbs →
  existing !! "desiredCount" = Some dc →
  (of_opt VStr (task_definition p) ≠ td ∧
   VInt (default 0%Z (desired_count p)) = dc) ∨
  (of_opt VStr (task_definition p) = td ∧
   VInt (default 0%Z (desired_count p)) ≠ dc) →
  ∃ payload : dict,
    (main w module).2 = [describe_call p; UpdateService payload] ∧
    payload !! "service" = Some (VStr (name p)) ∧
    payload !! "cluster" = VStr <$> cluster p ∧
    payload !! "taskDefinition" = VStr <$> task_definition p ∧
    payload !! "desiredCount" = VInt <$> desired_count p ∧
    (∀ k, k ∉ ["service"; "cluster"; "taskDefinition"; "desiredCount"] →
          payload !! k = None) ∧
    (main w module).1 =
      match response ← ecs_update_service w payload; jsonize w response with
      | Return updated =>
          ExitJson {| changed := true; service := Some updated;
                      ansible_facts := None |}
      | Raise e => Raised e
      end.
Proof.
  intros p Hstate Hcheck Hfetch Hstatus Htd Hlbs Hdc Hdiffers.
  exists (update_args (name p) (cluster p) (task_definition p) (desired_count p)).
  destruct (update_args_lookup (name p) (cluster p) (task_definition p)
              (desired_count p)) as (Hs & Hc & Ht & Hd & Hrest).
  rewrite (main_fetched _ _ _ Hfetch). unfold in_state. fold p. rewrite Hstate.
  rewrite state_present_update; [|done|by apply active_status|].
  - fold p. by destruct (_ ≫= _).
  - rewrite (is_matching_service_eq _ _ _ _ _ Htd Hlbs Hdc). f_equal.
    unfold p in *.
    destruct Hdiffers as [[Hne _]|[_ Hne]]; apply py_eq_false in Hne;
      rewrite Hne; [done|]. by rewrite andb_false_r.
Qed.

Lemma update_sends_what_is_set_witness :
  ∃ payload : dict,
    (main (Sample.steady "ACTIVE")
          (Sample.run present (Some "web:2") (Some 2%Z) 10 false)).2 =
      [describe_call (Sample.spec present (Some "web:2") (Some 2%Z) 10);
       UpdateService payload] ∧
    payload !! "service" = Some (VStr "web") ∧
    payload !! "cluster" = None ∧
    payload !! "taskDefinition" = Some (VStr "web:2") ∧
    payload !! "desiredCount" = Some (VInt 2) ∧
    (∀ k, k ∉ ["service"; "cluster"; "taskDefinition"; "desiredCount"] →
          payload !! k = None) ∧
    (main (Sample.steady "ACTIVE")
          (Sample.run present (Some "web:2") (Some 2%Z) 10 false)).1 =
      match response ← ecs_update_service (Sample.steady "ACTIVE") payload;
            jsonize (Sample.steady "ACTIVE") response with
      | Return updated =>
          ExitJson {| changed := true; service := Some updated;
                      ansible_facts := None |}
      | Raise e => Raised e
      end.
Proof.
  apply (update_sends_what_is_set (Sample.steady "ACTIVE")
           (Sample.run present (Some "web:2") (Some 2%Z) 10 false)
           (Sample.web "ACTIVE") (VStr "web:1") (VList []) (VInt 2));
    try reflexivity.
  left. split; [discriminate|reflexivity].
Defined.

(** C3, as stated, fails: the desired task_definition differs and the
    desired_count (2) equals the remote one, yet the update carries
    desiredCount all the same. *)
Lemma update_carries_matching_count :
  Sample.web "ACTIVE" !! "desiredCount" = Some (VInt 2) ∧
  ∃ payload : dict,
    (main (Sample.steady "ACTIVE")
          (Sample.run present (Some "web:2") (Some 2%Z) 10 false)).2 =
      [describe_call (Sample.spec present (Some "web:2") (Some 2%Z) 10);
       UpdateService payload] ∧
    payload !! "desiredCount" = Some (VInt 2).
Proof. split; [reflexivity|]. eexists. split; reflexivity. Qed.

(** ** state=absent *)

(** C10.  For every state=absent run (dry or not) that finds the service
    with status INACTIVE, the run exits with changed=false, its only call is
    the first describe (no delete), and [ansible_facts] is the service as
    found with the keys deployments and events removed. *)
Theorem absent_inactive_not_deleted (w : world) (module : AnsibleModule)
    (existing : dict) (deployments events : value) :
  let p := params module in
  state p = absent →
  fetched w p 0 = Return (Some existing) →
  existing !! "status" = Some (VStr "INACTIVE") →
  existing !! "deployments" = Some deployments →
  existing !! "events" = Some events →
  main w module =
    (ExitJson {| changed := false; service := None;
                 ansible_facts :=
                   Some (delete "events" (delete "deployments" existing)) |},
     [describe_call p]).
Proof.
  intros p Hstate Hfetch Hstatus Hdeployments Hevents.
  rewrite (main_fetched _ _ _ Hfetch). unfold in_state. fold p. rewrite Hstate.
  unfold state_absent. rewrite (exists_Some _ _ _ Hstatus). simpl.
  rewrite run_bind, run_lift. unfold py_delitem at 1. rewrite Hdeployments. simpl.
  rewrite run_bind, run_lift. unfold py_delitem.
  rewrite lookup_delete_ne, Hevents by done. simpl.
  rewrite status_is_eq, bool_decide_eq_true_2; [done|].
  by rewrite !lookup_delete_ne.
Qed.

Lemma absent_inactive_not_deleted_witness :
  main (Sample.steady "INACTIVE") (Sample.run absent None None 10 false) =
    (ExitJson {| changed := false; service := None;
                 ansible_facts :=
                   Some (delete "events"
                           (delete "deployments" (Sample.web "INACTIVE"))) |},
     [describe_call (Sample.spec absent None None 10)]).
Proof.
  apply (absent_inactive_not_deleted (Sample.steady "INACTIVE")
           (Sample.run absent None None 10 false) (Sample.web "INACTIVE")
           (VList [Sample.deployment]) (VList [Sample.event]));
    reflexivity.
Defined.

(** ** state=deleting: the wait loop *)

Lemma range_length (n : Z) : length (range n) = Z.to_nat n.
Proof. unfold range. by rewrite length_fmap, length_seq. Qed.

Lemma range_lookup (n : Z) (k : nat) :
  k < Z.to_nat n → range n !! k = Some (Z.of_nat k).
Proof.
  intros Hk. unfold range. rewrite list_lookup_fmap.
  by rewrite lookup_seq_lt.
Qed.

Lemma range_nonpositive (n : Z) : (n ≤ 0)%Z → range n = [].
Proof. intros Hn. unfold range. by rewrite Z2Nat.nonpos. Qed.

Lemma range_last (n : Z) : (0 < n)%Z → last (range n) = Some (n - 1)%Z.
Proof.
  intros Hn. rewrite last_lookup, range_length.
  rewrite range_lookup by lia. f_equal. lia.
Qed.

Lemma rounds_succ (k : nat) (round : list call) :
  rounds (S k) round = (round ++ rounds k round)%list.
Proof. reflexivity. Qed.

Lemma rounds_shift (k : nat) (a b : call) :
  (a :: rounds k [b; a] ++ [b])%list = rounds (S k) [a; b].
Proof.
  induction k as [|k IH]; [done|].
  rewrite (rounds_succ (S k)), <- IH. reflexivity.
Qed.

Lemma describes_so_far_describe (p : Params) (log : list call) :
  describes_so_far (log ++ [describe_call p]) = S (describes_so_far log).
Proof. rewrite describes_so_far_app. unfold describes_so_far. simpl. lia. Qed.

Lemma describes_so_far_sleep (seconds : Z) (log : list call) :
  describes_so_far (log ++ [Sleep seconds]) = describes_so_far log.
Proof. rewrite describes_so_far_app. unfold describes_so_far. simpl. lia. Qed.

(** One round of the loop, given the status the describe reports. *)
Lemma run_poll_round (w : world) (p : Params) (j : Z) (rest : list Z)
    (i : option Z) (results : Results) (log : list call) (status : value) :
  status_at w p (describes_so_far log) = Return status →
  poll w p (j :: rest) i results log =
    if py_eq status (VStr "INACTIVE")
    then (inr (Some j, set_changed true results), (log ++ [describe_call p])%list)
    else (sleep (delay p) ≫= λ _, poll w p rest (Some j) results)
           (log ++ [describe_call p])%list.
Proof.
  intros Hstatus. simpl. rewrite run_bind, run_describe_service.
  unfold status_at in Hstatus.
  destruct (fetched w p (describes_so_far log)) as [existing|]; [|done].
  simpl in *. rewrite run_bind, run_lift, Hstatus. simpl.
  by destruct (py_eq _ _).
Qed.

(** The service turns INACTIVE on round [k] (counted from 0) of the rounds
    still to come: the loop breaks there, with [i] the index of that round,
    after [k] full rounds and one more describe. *)
Lemma poll_until_inactive (w : world) (p : Params) (k : nat) :
  ∀ (indices : list Z) (i : option Z) (results : Results) (log : list call),
  (0 ≤ delay p)%Z →
  (∀ j, j < k →
     ∃ status, status_at w p (describes_so_far log + j) = Return status ∧
               status ≠ VStr "INACTIVE") →
  status_at w p (describes_so_far log + k) = Return (VStr "INACTIVE") →
  k < length indices →
  poll w p indices i results log =
    (inr (indices !! k, set_changed true results),
     (log ++ rounds k [describe_call p; Sleep (delay p)] ++ [describe_call p])%list).
Proof.
  induction k as [|k IH]; intros indices i results log Hdelay Hbefore Hat Hlen;
    destruct indices as [|j rest]; simpl in Hlen; try lia.
  - rewrite Nat.add_0_r in Hat. by rewrite (run_poll_round _ _ _ _ _ _ _ _ Hat).
  - destruct (Hbefore 0) as (status & Hstatus & Hne); [lia|].
    rewrite Nat.add_0_r in Hstatus.
    rewrite (run_poll_round _ _ _ _ _ _ _ _ Hstatus).
    apply py_eq_false in Hne. rewrite Hne.
    rewrite run_bind, run_sleep by done.
    rewrite (IH rest (Some j) results); try done; try lia.
    + rewrite rounds_succ. simpl. by rewrite <- !app_assoc.
    + intros j' Hj'. rewrite describes_so_far_sleep, describes_so_far_describe.
      destruct (Hbefore (S j')) as (st & Hst & Hst'); [lia|].
      exists st. split; [|done]. rewrite <- Hst. f_equal. lia.
    + rewrite describes_so_far_sleep, describes_so_far_describe.
      rewrite <- Hat. f_equal. lia.
Qed.

(** The service never turns INACTIVE while the loop runs: the loop goes
    through every index, a describe and a sleep each, and leaves [i] at the
    last one. *)
Lemma poll_exhausted (w : world) (p : Params) :
  ∀ (indices : list Z) (i : option Z) (results : Results) (log : list call),
  (0 ≤ delay p)%Z →
  (∀ j, j < length indices →
     ∃ status, status_at w p (describes_so_far log + j) = Return status ∧
               status ≠ VStr "INACTIVE") →
  poll w p indices i results log =
    (inr (last_index indices i, results),
     (log ++ rounds (length indices) [describe_call p; Sleep (delay p)])%list).
Proof.
  induction indices as [|j rest IH]; intros i results log Hdelay Hnever.
  - simpl. unfold rounds. simpl. by rewrite app_nil_r.
  - destruct (Hnever 0) as (status & Hstatus & Hne); [simpl; lia|].
    rewrite Nat.add_0_r in Hstatus.
    rewrite (run_poll_round _ _ _ _ _ _ _ _ Hstatus).
    apply py_eq_false in Hne. rewrite Hne.
    rewrite run_bind, run_sleep by done.
    rewrite IH; try done.
    + f_equal.
      * f_equal. unfold last_index. rewrite last_cons. by destruct (last rest).
      * simpl length. rewrite rounds_succ. simpl. by rewrite <- !app_assoc.
    + intros j' Hj'. rewrite describes_so_far_sleep, describes_so_far_describe.
      destruct (Hnever (S j')) as (st & Hst & Hst'); [simpl; lia|].
      exists st. split; [|done]. rewrite <- Hst. f_equal. lia.
Qed.

Lemma rounds_rotate (k : nat) (a b : call) :
  (a :: rounds k [b; a])%list = (rounds k [a; b] ++ [a])%list.
Proof.
  induction k as [|k IH]; [done|].
  rewrite !rounds_succ. simpl. by rewrite IH.
Qed.

Lemma rounds_sleeps (k : nat) (p : Params) (seconds : Z) :
  length (filter (λ c, is_sleep c = true)
            (rounds k [Sleep seconds; describe_call p])) = k.
Proof.
  induction k as [|k IH]; [done|].
  by rewrite rounds_succ, filter_app, length_app, IH.
Qed.

Lemma rounds_describes (k : nat) (p : Params) (seconds : Z) :
  describes_so_far (rounds k [Sleep seconds; describe_call p]) = k.
Proof.
  induction k as [|k IH]; [done|].
  by rewrite rounds_succ, describes_so_far_app, IH.
Qed.

(** [state_deleting] up to the loop: the service is there, the first sleep
    is done. *)
Lemma run_state_deleting (w : world) (module : AnsibleModule)
    (existing : option dict) (log : list call) :
  let p := params module in
  exists_ existing = true → (0 ≤ delay p)%Z →
  state_deleting w module existing no_results log =
    match poll w p (range (repeat p)) None no_results
            (log ++ [Sleep (delay p)])%list with
    | (inl o, log') => (inl o, log')
    | (inr (None, _), log') => (inl (Raised unbound_i), log')
    | (inr (Some i, results), log') =>
        if int_is i (repeat p - 1) then (inl (FailJson (timed_out w p)), log')
        else (inr results, log')
    end.
Proof.
  intros p Hexists Hdelay. unfold state_deleting. fold p. rewrite Hexists. simpl.
  rewrite run_bind, run_sleep by done. rewrite run_bind.
  destruct (poll _ _ _ _ _ _) as [[o|[[i|] results]] log']; try done.
  by destruct (int_is _ _).
Qed.

(** The service turns INACTIVE on poll [k] (counted from 1, [k] at most
    [repeat]): the run stops after the first describe and [k] rounds of a
    sleep and a describe.  What it reports hangs on the test
    [i is repeat-1]. *)
Lemma deleting_inactive_at (w : world) (module : AnsibleModule)
    (existing : dict) (k : nat) :
  let p := params module in
  state p = deleting →
  (0 ≤ delay p)%Z →
  fetched w p 0 = Return (Some existing) →
  (1 ≤ k)%nat → (Z.of_nat k ≤ repeat p)%Z →
  (∀ q, (1 ≤ q < k)%nat →
     ∃ status, status_at w p q = Return status ∧ status ≠ VStr "INACTIVE") →
  status_at w p k = Return (VStr "INACTIVE") →
  main w module =
    (if int_is (Z.of_nat k - 1) (repeat p - 1) then FailJson (timed_out w p)
     else ExitJson {| changed := true; service := None; ansible_facts := None |},
     describe_call p :: rounds k [Sleep (delay p); describe_call p]).
Proof.
  intros p Hstate Hdelay Hfetch Hk Hrepeat Hbefore Hat.
  rewrite (main_fetched _ _ _ Hfetch). unfold in_state. fold p. rewrite Hstate.
  rewrite run_state_deleting; [|by apply (fetched_true w p 0)|done]. fold p.
  destruct k as [|k]; [lia|].
  rewrite (poll_until_inactive w p k).
  - rewrite range_lookup by lia.
    replace (Z.of_nat (S k) - 1)%Z with (Z.of_nat k) by lia.
    simpl app. rewrite rounds_shift.
    by destruct (int_is _ _).
  - done.
  - intros j Hj. change (describes_so_far _) with 1. apply Hbefore. lia.
  - by change (describes_so_far _) with 1.
  - rewrite range_length. lia.
Qed.

(** The service is never INACTIVE in [repeat] polls: the run goes through
    [repeat] rounds and one more sleep.  It reports the timeout when
    [repeat-1] is an int CPython shares; for a larger [repeat] the test
    [i is repeat-1] is false and the run exits with changed=false. *)
Lemma deleting_exhausted (w : world) (module : AnsibleModule)
    (existing : dict) :
  let p := params module in
  state p = deleting →
  (0 ≤ delay p)%Z →
  fetched w p 0 = Return (Some existing) →
  (1 ≤ repeat p)%Z →
  (∀ q, (1 ≤ q ≤ Z.to_nat (repeat p))%nat →
     ∃ status, status_at w p q = Return status ∧ status ≠ VStr "INACTIVE") →
  main w module =
    (if small_int (repeat p - 1) then FailJson (timed_out w p)
     else ExitJson no_results,
     describe_call p ::
       rounds (Z.to_nat (repeat p)) [Sleep (delay p); describe_call p] ++
       [Sleep (delay p)])%list.
Proof.
  intros p Hstate Hdelay Hfetch Hrepeat Hnever.
  rewrite (main_fetched _ _ _ Hfetch). unfold in_state. fold p. rewrite Hstate.
  rewrite run_state_deleting; [|by apply (fetched_true w p 0)|done]. fold p.
  rewrite poll_exhausted; [|done|].
  - unfold last_index. rewrite range_last, range_length by lia.
    simpl app. rewrite rounds_rotate. unfold int_is.
    rewrite Z.eqb_refl. simpl. by destruct (small_int _).
  - intros j Hj. rewrite range_length in Hj.
    change (describes_so_far _) with 1. apply Hnever. lia.
Qed.

(** C8.  In a state=deleting run on a service that is there, the sleep of
    [delay] seconds comes right after the first describe, before any
    re-fetch.  And when the service turns INACTIVE on poll [k], with
    [1 ≤ k < repeat], the run exits with changed=true after the first
    describe and exactly [k] rounds of one sleep of [delay] seconds and one
    describe: [k] sleeps, and [k] describes after the first. *)
Theorem deleting_succeeds_on_poll (w : world) (module : AnsibleModule)
    (existing : dict) :
  let p := params module in
  state p = deleting →
  (0 ≤ delay p)%Z →
  fetched w p 0 = Return (Some existing) →
  (∃ rest, (main w module).2 = describe_call p :: Sleep (delay p) :: rest) ∧
  ∀ k : nat,
    (1 ≤ k)%nat → (Z.of_nat k < repeat p)%Z →
    (∀ q, (1 ≤ q < k)%nat →
       ∃ status, status_at w p q = Return status ∧ status ≠ VStr "INACTIVE") →
    status_at w p k = Return (VStr "INACTIVE") →
    main w module =
      (ExitJson {| changed := true; service := None; ansible_facts := None |},
       describe_call p :: rounds k [Sleep (delay p); describe_call p]) ∧
    length (filter (λ c, is_sleep c = true) (main w module).2) = k ∧
    describes_so_far (main w module).2 = S k.
Proof.
  intros p Hstate Hdelay Hfetch. split.
  - rewrite (main_fetched _ _ _ Hfetch). unfold in_state. fold p. rewrite Hstate.
    rewrite run_state_deleting; [|by apply (fetched_true w p 0)|done]. fold p.
    destruct (appends_poll w p (range (repeat p)) None no_results
                ([describe_call p] ++ [Sleep (delay p)])%list)
      as (ext & Hlog & _).
    destruct (poll _ _ _ _ _ _) as [[o|[[i|] results]] log'];
      simpl in Hlog; subst log'; try (by exists ext).
    destruct (int_is _ _); by exists ext.
  - intros k Hk Hrepeat Hbefore Hat.
    rewrite (deleting_inactive_at w module existing k);
      try done; try (fold p; lia).
    fold p. unfold int_is.
    destruct (Z.eqb_spec (Z.of_nat k - 1) (repeat p - 1)) as [?|_]; [lia|].
    simpl. split; [done|]. split.
    + apply rounds_sleeps.
    + change (describe_call p :: ?l) with ([describe_call p] ++ l)%list.
      by rewrite describes_so_far_app, rounds_describes.
Qed.

Lemma deleting_succeeds_on_poll_witness :
  main (Sample.draining_until 3) (Sample.run deleting None None 10 false) =
    (ExitJson {| changed := true; service := None; ansible_facts := None |},
     describe_call (Sample.spec deleting None None 10) ::
       rounds 3 [Sleep 5; describe_call (Sample.spec deleting None None 10)]) ∧
  length (filter (λ c, is_sleep c = true)
            (main (Sample.draining_until 3)
                  (Sample.run deleting None None 10 false)).2) = 3 ∧
  describes_so_far
    (main (Sample.draining_until 3)
          (Sample.run deleting None None 10 false)).2 = 4.
Proof.
  refine (proj2 (deleting_succeeds_on_poll (Sample.draining_until 3)
                   (Sample.run deleting None None 10 false)
                   (Sample.web "DRAINING") eq_refl _ eq_refl) 3 _ _ _ eq_refl).
  - discriminate.
  - repeat constructor.
  - reflexivity.
  - intros [|[|[|q]]] [Hlow Hhigh].
    + inversion Hlow.
    + exists (VStr "DRAINING"). split; [reflexivity|discriminate].
    + exists (VStr "DRAINING"). split; [reflexivity|discriminate].
    + exfalso. do 3 apply Nat.succ_lt_mono in Hhigh. inversion Hhigh.
Defined.

(** C1 on the code.  Three tries, and the service is INACTIVE on the third
    poll: the loop sets changed and breaks with [i] at [repeat-1], so the
    exhaustion test holds and the run fails with the timeout message, though
    the service did reach INACTIVE. *)
Theorem timeout_reported_on_last_poll :
  status_at (Sample.draining_until 3) (Sample.spec deleting None None 3) 3
    = Return (VStr "INACTIVE") ∧
  main (Sample.draining_until 3) (Sample.run deleting None None 3 false) =
    (FailJson "Service still not deleted after 3 tries of 5 seconds each.",
     describe_call (Sample.spec deleting None None 3) ::
       rounds 3 [Sleep 5; describe_call (Sample.spec deleting None None 3)]).
Proof. split; reflexivity. Qed.

(** The same for every [repeat] from 1 to 257: INACTIVE on the last poll is
    reported as a timeout. *)
Lemma timeout_on_last_poll (w : world) (module : AnsibleModule)
    (existing : dict) :
  let p := params module in
  state p = deleting →
  (0 ≤ delay p)%Z →
  fetched w p 0 = Return (Some existing) →
  (1 ≤ repeat p ≤ 257)%Z →
  (∀ q, (1 ≤ q < Z.to_nat (repeat p))%nat →
     ∃ status, status_at w p q = Return status ∧ status ≠ VStr "INACTIVE") →
  status_at w p (Z.to_nat (repeat p)) = Return (VStr "INACTIVE") →
  main w module =
    (FailJson (timed_out w p),
     describe_call p ::
       rounds (Z.to_nat (repeat p)) [Sleep (delay p); describe_call p]).
Proof.
  intros p Hstate Hdelay Hfetch Hrepeat Hbefore Hat.
  rewrite (deleting_inactive_at w module existing (Z.to_nat (repeat p)));
    try done; try (fold p; lia).
  fold p. rewrite Z2Nat.id by lia. unfold int_is, small_int.
  rewrite Z.eqb_refl. simpl.
  destruct (Z.leb_spec (-5) (repeat p - 1)); [|lia].
  destruct (Z.leb_spec (repeat p - 1) 256); [done|lia].
Qed.

(** C9.  For every state=deleting run on a service that is there, with
    [repeat ≤ 0]: the loop body never runs (the log holds the first describe
    and, at most, the first sleep), and the run ends in an exception nobody
    catches, so neither in the timeout failure nor in an exit.  With a
    [delay] the clock accepts, the exception is the UnboundLocalError for
    the loop variable [i]. *)
Theorem deleting_without_tries_aborts (w : world) (module : AnsibleModule)
    (existing : dict) :
  let p := params module in
  state p = deleting →
  fetched w p 0 = Return (Some existing) →
  (repeat p ≤ 0)%Z →
  ∃ e : exception,
    main w module =
      (Raised e,
       describe_call p :: if bool_decide (0 ≤ delay p)%Z
                          then [Sleep (delay p)] else []) ∧
    ((0 ≤ delay p)%Z → e = unbound_i).
Proof.
  intros p Hstate Hfetch Hrepeat.
  rewrite (main_fetched _ _ _ Hfetch). unfold in_state. fold p. rewrite Hstate.
  case_bool_decide as Hdelay.
  - exists unbound_i. split; [|done].
    rewrite run_state_deleting; [|by apply (fetched_true w p 0)|done]. fold p.
    by rewrite range_nonpositive.
  - exists (IOError "[Errno 22] Invalid argument"). split; [|done].
    unfold state_deleting. fold p. rewrite (fetched_true w p 0 _ Hfetch). simpl.
    rewrite run_bind. unfold sleep.
    destruct (Z.ltb_spec (delay p) 0); [done|lia].
Qed.

Lemma deleting_without_tries_aborts_witness :
  ∃ e : exception,
    main (Sample.steady "DRAINING") (Sample.run deleting None None 0 false) =
      (Raised e,
       [describe_call (Sample.spec deleting None None 0); Sleep 5]) ∧
    ((0 ≤ 5)%Z → e = unbound_i).
Proof.
  refine (deleting_without_tries_aborts (Sample.steady "DRAINING")
            (Sample.run deleting None None 0 false) (Sample.web "DRAINING")
            eq_refl eq_refl _).
  discriminate.
Defined.

(** ** Further runs on sample inputs *)

(** A failure reported for another service only: [find_in_array] finds no
    entry for the name, the subscript on None raises, and [main] reports the
    TypeError through [fail_json]. *)
Example failure_for_another_service :
  let response :=
    {| failures := [ {[ "arn" := VStr "arn:aws:ecs:us-east-1:012345678910:service/api";
                        "reason" := VStr "MISSING" ]} ];
       services := [Sample.web "ACTIVE"] |} in
  describe_service_result "web" response =
    Raise (TypeError "'NoneType' object has no attribute '__getitem__'") ∧
  main (Sample.remote (λ _, response))
       (Sample.run present (Some "web:1") (Some 2%Z) 10 false) =
    (FailJson ("Exception describing service 'web' in cluster 'None': " +:+
               "'NoneType' object has no attribute '__getitem__'"),
     [describe_call (Sample.spec present (Some "web:1") (Some 2%Z) 10)]).
Proof. split; reflexivity. Qed.

(** The service is gone for good on the second poll: [describe_service]
    returns None and the subscript [existing['status']] raises, uncaught. *)
Example service_removed_while_waiting :
  main (Sample.remote (λ n, if bool_decide (n < 2) then Sample.found (Sample.web "DRAINING")
                            else Sample.missing))
       (Sample.run deleting None None 10 false) =
    (Raised (TypeError "'NoneType' object has no attribute '__getitem__'"),
     describe_call (Sample.spec deleting None None 10) ::
       rounds 2 [Sleep 5; describe_call (Sample.spec deleting None None 10)]).
Proof. reflexivity. Qed.

(** 258 tries and the service never INACTIVE: [i] and [repeat-1] are both
    257, but not the same object, so the run exits with changed=false. *)
Example exhausted_beyond_shared_ints :
  (main (Sample.steady "DRAINING") (Sample.run deleting None None 258 false)).1
    = ExitJson no_results.
Proof.
  rewrite (deleting_exhausted (Sample.steady "DRAINING")
             (Sample.run deleting None None 258 false) (Sample.web "DRAINING"));
    try done.
  intros q _. exists (VStr "DRAINING"). by split.
Qed.

(** state=absent on an ACTIVE service: one delete outside check mode, none
    in check mode, changed=true either way. *)
Example absent_active_deletes :
  (main (Sample.steady "ACTIVE") (Sample.run absent None None 10 false)).2 =
    [describe_call (Sample.spec absent None None 10);
     DeleteService (delete_args "web" None)] ∧
  (main (Sample.steady "ACTIVE") (Sample.run absent None None 10 true)).2 =
    [describe_call (Sample.spec absent None None 10)] ∧
  changed <$> (match (main (Sample.steady "ACTIVE")
                        (Sample.run absent None None 10 true)).1 with
               | ExitJson r => Some r
               | _ => None
               end) = Some true.
Proof. repeat split; reflexivity. Qed.

(** * Further properties of the code *)

(** ** [endswith] and [find_in_array] *)

Lemma append_cons (c : Ascii.ascii) (s t : string) :
  String c s +:+ t = String c (s +:+ t).
Proof. reflexivity. Qed.

Lemma append_nil_r (s : string) : s +:+ EmptyString = s.
Proof. induction s as [|c s IH]; [done|]. by rewrite append_cons, IH. Qed.

Lemma append_assoc (a b c : string) : a +:+ (b +:+ c) = (a +:+ b) +:+ c.
Proof. induction a as [|x a IH]; [done|]. by rewrite !append_cons, IH. Qed.

Lemma prefix_app (a b : string) : String.prefix a (a +:+ b) = true.
Proof.
  induction a as [|c a IH]; [by destruct b|].
  rewrite append_cons. simpl. by destruct (Ascii.ascii_dec c c).
Qed.

Lemma prefix_inv (a s : string) :
  String.prefix a s = true → ∃ b, s = a +:+ b.
Proof.
  revert s. induction a as [|c a IH]; intros s.
  - intros _. by exists s.
  - destruct s as [|c' s]; [done|]. simpl.
    destruct (Ascii.ascii_dec c c') as [->|]; [|done].
    intros [b ->]%IH. by exists b.
Qed.

Lemma rev_app_acc (s acc : string) :
  String.rev_app s acc = String.rev_app s EmptyString +:+ acc.
Proof.
  revert acc. induction s as [|c s IH]; intros acc; simpl; [done|].
  rewrite IH, (IH (String c EmptyString)).
  by rewrite <- append_assoc.
Qed.

Lemma rev_append (a b : string) :
  String.rev (a +:+ b) = String.rev b +:+ String.rev a.
Proof.
  unfold String.rev. induction a as [|c a IH].
  - by rewrite append_nil_r.
  - rewrite append_cons. simpl.
    rewrite rev_app_acc, IH, (rev_app_acc a (String c EmptyString)).
    by rewrite append_assoc.
Qed.

Lemma rev_involutive (s : string) : String.rev (String.rev s) = s.
Proof.
  induction s as [|c s IH]; [done|].
  change (String c s) with (String c EmptyString +:+ s) at 1.
  rewrite rev_append, rev_append, IH. reflexivity.
Qed.

(** [s.endswith(suffix)] holds exactly when [s] is some text followed by
    [suffix]. *)
Lemma endswith_iff (s suffix : string) :
  endswith s suffix = true ↔ ∃ pre, s = pre +:+ suffix.
Proof.
  unfold endswith. split.
  - intros [b Hb]%prefix_inv. exists (String.rev b).
    by rewrite <- (rev_involutive s), Hb, rev_append, rev_involutive.
  - intros [pre ->]. rewrite rev_append. apply prefix_app.
Qed.

Lemma find_in_array_skip (service_name field_name : string) (c : dict)
    (rest : list dict) :
  about_another service_name field_name c →
  find_in_array (c :: rest) service_name field_name =
    find_in_array rest service_name field_name.
Proof. intros (text & Hfield & Hends). simpl. by rewrite Hfield; simpl; rewrite Hends. Qed.

Lemma find_in_array_hit (service_name field_name : string) (c : dict)
    (rest : list dict) :
  about service_name field_name c →
  find_in_array (c :: rest) service_name field_name = Return (Some c).
Proof. intros (text & Hfield & Hends). simpl. by rewrite Hfield; simpl; rewrite Hends. Qed.

Lemma find_in_array_skip_all (service_name field_name : string)
    (before rest : list dict) :
  Forall (about_another service_name field_name) before →
  find_in_array (before ++ rest) service_name field_name =
    find_in_array rest service_name field_name.
Proof.
  induction 1 as [|c before Hc _ IH]; [done|].
  by rewrite <- app_comm_cons, find_in_array_skip.
Qed.

(** X1.  [find_in_array] returns an entry exactly when that entry is the
    first of the array whose field is text ending with the name, every
    entry before it carrying text that does not end with the name. *)
Theorem find_in_array_first_match (array : list dict)
    (service_name field_name : string) (c : dict) :
  find_in_array array service_name field_name = Return (Some c) ↔
  ∃ before after,
    array = (before ++ c :: after)%list ∧
    Forall (about_another service_name field_name) before ∧
    about service_name field_name c.
Proof.
  split.
  - induction array as [|c0 array IH]; [done|]. simpl. unfold py_getitem.
    destruct (c0 !! field_name) as [v|] eqn:Hfield; [|done]. simpl.
    destruct v; try done. simpl.
    destruct (endswith s service_name) eqn:Hends.
    + intros [= <-]. exists [], array. repeat split; [constructor|].
      by exists s.
    + intros (before & after & -> & Hbefore & Hc)%IH.
      exists (c0 :: before), after. repeat split; [|done].
      constructor; [by exists s|done].
  - intros (before & after & -> & Hbefore & Hc).
    by rewrite find_in_array_skip_all, find_in_array_hit.
Qed.

Lemma find_in_array_all_others (array : list dict)
    (service_name field_name : string) :
  Forall (about_another service_name field_name) array →
  find_in_array array service_name field_name = Return None.
Proof.
  intros Hall. rewrite <- (app_nil_r array).
  by rewrite find_in_array_skip_all.
Qed.

(** X2.  [find_in_array] returns None exactly when every entry carries, in
    the field, text that does not end with the name; in particular on the
    empty array. *)
Theorem find_in_array_none (array : list dict)
    (service_name field_name : string) :
  find_in_array array service_name field_name = Return None ↔
  Forall (about_another service_name field_name) array.
Proof.
  split.
  - induction array as [|c0 array IH]; [by constructor|]. simpl.
    unfold py_getitem.
    destruct (c0 !! field_name) as [v|] eqn:Hfield; [|done]. simpl.
    destruct v; try done. simpl.
    destruct (endswith s service_name) eqn:Hends; [done|].
    intros Hrest%IH. constructor; [by exists s|done].
  - apply find_in_array_all_others.
Qed.

(** X3.  Matching is by suffix: an entry whose field is any text followed
    by the name is taken, so the name of one service also picks a service
    whose name merely ends with it. *)
Theorem find_in_array_takes_any_suffix (before_name service_name field_name : string)
    (c : dict) (rest : list dict) :
  c !! field_name = Some (VStr (before_name +:+ service_name)) →
  find_in_array (c :: rest) service_name field_name = Return (Some c).
Proof.
  intros Hfield. apply find_in_array_hit. eexists. split; [done|].
  apply endswith_iff. by exists before_name.
Qed.

Lemma find_in_array_takes_any_suffix_witness :
  let other : dict :=
    {[ "serviceArn" := VStr "arn:aws:ecs:us-east-1:012345678910:service/myweb" ]} in
  find_in_array [other; Sample.web "ACTIVE"] "web" "serviceArn" = Return (Some other).
Proof.
  intros other.
  apply (find_in_array_takes_any_suffix
           "arn:aws:ecs:us-east-1:012345678910:service/my" "web" "serviceArn").
  reflexivity.
Defined.

(** X4.  An entry without the field, met before any entry for the name,
    makes [find_in_array] raise KeyError for that field. *)
Theorem find_in_array_missing_field (before after : list dict) (c : dict)
    (service_name field_name : string) :
  Forall (about_another service_name field_name) before →
  c !! field_name = None →
  find_in_array (before ++ c :: after) service_name field_name =
    Raise (KeyError field_name).
Proof.
  intros Hbefore Hfield. rewrite find_in_array_skip_all by done.
  simpl. by rewrite Hfield.
Qed.

Lemma find_in_array_missing_field_witness :
  find_in_array [ {[ "reason" := VStr "MISSING" ]}; Sample.web "ACTIVE" ]
    "web" "serviceArn" = Raise (KeyError "serviceArn").
Proof.
  apply (find_in_array_missing_field [] [Sample.web "ACTIVE"]
           {[ "reason" := VStr "MISSING" ]} "web" "serviceArn").
  - constructor.
  - reflexivity.
Defined.

(** ** [describe_service] beyond the failure entry for the service *)

(** X5.  A response without failures: the fetcher returns the first
    service whose serviceArn ends with the name; when there is none (the
    services list may be empty) it raises the StandardError that names the
    service.  It never reports absence. *)
Theorem describe_without_failures (service_name : string)
    (response : describe_response) :
  failures response = [] →
  describe_service_result service_name response ≠ Return None ∧
  (∀ s, find_in_array (services response) service_name "serviceArn"
          = Return (Some s) →
        describe_service_result service_name response = Return (Some s)) ∧
  (find_in_array (services response) service_name "serviceArn" = Return None →
   describe_service_result service_name response =
     Raise (StandardError ("Unknown problem describing service " +:+
                           service_name +:+ "."))).
Proof.
  intros Hnone. unfold describe_service_result. rewrite Hnone. simpl.
  split; [|split].
  - unfold look_through_found. destruct (bool_decide _); [|done].
    destruct (find_in_array _ _ _) as [[s|]|]; try done. simpl.
    by destruct (exists_ (Some s)).
  - apply look_through_found_Some.
  - apply look_through_found_None.
Qed.

Lemma describe_without_failures_witness :
  describe_service_result "web" {| failures := []; services := [] |} =
    Raise (StandardError "Unknown problem describing service web.").
Proof.
  refine (proj2 (proj2 (describe_without_failures "web"
                          {| failures := []; services := [] |} eq_refl)) _).
  reflexivity.
Defined.

(** X6.  A response with failures, none of them for the service: the
    subscript [c['reason']] is taken on None and the fetcher raises a
    TypeError, whether or not the service is among those found. *)
Theorem describe_failures_for_others (service_name : string)
    (response : describe_response) :
  failures response ≠ [] →
  Forall (about_another service_name "arn") (failures response) →
  describe_service_result service_name response =
    Raise (TypeError "'NoneType' object has no attribute '__getitem__'").
Proof.
  intros Hne Hothers. unfold describe_service_result.
  rewrite bool_decide_eq_true_2
    by (destruct (failures response); [done | simpl; lia]).
  by rewrite (find_in_array_all_others _ _ _ Hothers).
Qed.

Lemma describe_failures_for_others_witness :
  describe_service_result "web"
    {| failures := [ {[ "arn" := VStr "arn:aws:ecs:us-east-1:012345678910:service/api";
                        "reason" := VStr "MISSING" ]} ];
       services := [Sample.web "ACTIVE"] |} =
    Raise (TypeError "'NoneType' object has no attribute '__getitem__'").
Proof.
  apply describe_failures_for_others.
  - discriminate.
  - repeat constructor. eexists. split; reflexivity.
Defined.

(** X7.  Whatever exception the first describe raises, in the remote call
    or in reading its response, [main] catches it and fails through
    [fail_json] with a message naming the service, the cluster (None when
    unset) and the text of the exception; the describe is its only call. *)
Theorem first_describe_failure_reported (w : world) (module : AnsibleModule)
    (e : exception) :
  let p := params module in
  fetched w p 0 = Raise e →
  main w module =
    (FailJson ("Exception describing service '" +:+ name p +:+
               "' in cluster '" +:+ from_option id "None" (cluster p) +:+
               "': " +:+ str_exception e),
     [describe_call p]).
Proof.
  intros p Hfetch. rewrite (main_fetch_failed _ _ _ Hfetch). fold p.
  by destruct (cluster p).
Qed.

Lemma first_describe_failure_reported_witness :
  main {| ecs_describe_services := λ _ _, Raise (ClientError "AccessDenied");
          ecs_create_service := λ _, Return ∅;
          ecs_update_service := λ _, Return ∅;
          ecs_delete_service := λ _, Return ();
          str_object := λ _, EmptyString |}
       (Sample.run absent None None 10 false) =
    (FailJson "Exception describing service 'web' in cluster 'None': AccessDenied",
     [describe_call (Sample.spec absent None None 10)]).
Proof.
  apply (first_describe_failure_reported
           {| ecs_describe_services := λ _ _, Raise (ClientError "AccessDenied");
              ecs_create_service := λ _, Return ∅;
              ecs_update_service := λ _, Return ∅;
              ecs_delete_service := λ _, Return ();
              str_object := λ _, EmptyString |}
           (Sample.run absent None None 10 false) (ClientError "AccessDenied")).
  reflexivity.
Defined.

(** ** [jsonize] *)

Lemma as_text_idemp (w : world) (v : value) :
  as_text w (as_text w v) = as_text w v.
Proof. reflexivity. Qed.

Lemma stringify_alter (w : world) (key : string) (m : dict) :
  stringify w key (VDict m) = Return (VDict (alter (as_text w) key m)).
Proof.
  unfold stringify. simpl.
  destruct (m !! key) as [v|] eqn:Hk.
  - rewrite bool_decide_eq_true_2 by eauto. simpl.
    by rewrite (alter_alt_Some _ _ _ _ Hk).
  - rewrite bool_decide_eq_false_2 by (intros [? ?]; congruence). simpl.
    by rewrite alter_id'.
Qed.

Lemma for_each_fmap (f : value → value) (run : value → except value)
    (l : list value) :
  (∀ m, run (VDict m) = Return (f (VDict m))) →
  forallb is_dict l = true →
  for_each run l = Return (f <$> l).
Proof.
  intros Hrun. induction l as [|x l IH]; intros Hl; [done|]. simpl.
  apply andb_true_iff in Hl as [Hx Hl]. destruct x; try done.
  by rewrite Hrun, (IH Hl).
Qed.

Lemma for_each_in_alter (field : string) (f : value → value)
    (run : value → except value) (s : dict) :
  (∀ m, run (VDict m) = Return (f (VDict m))) →
  (∀ v, s !! field = Some v → list_of_dicts v = true) →
  for_each_in field run s = Return (alter (on_items f) field s).
Proof.
  intros Hrun Hshape. unfold for_each_in.
  destruct (s !! field) as [v|] eqn:Hv.
  - specialize (Hshape v eq_refl). destruct v; try done. simpl in *.
    rewrite (for_each_fmap f run l Hrun Hshape). simpl.
    by rewrite (alter_alt_Some _ _ _ _ Hv).
  - by rewrite alter_id'.
Qed.

Lemma jsonized_lookup (w : world) (s : dict) (k : string) :
  jsonized w s !! k =
    if decide (k = "events") then on_items (stamp_event w) <$> s !! k
    else if decide (k = "deployments")
         then on_items (stamp_deployment w) <$> s !! k
         else s !! k.
Proof.
  unfold jsonized. repeat case_decide; subst.
  - by rewrite lookup_alter_eq, lookup_alter_ne.
  - by rewrite lookup_alter_ne, lookup_alter_eq.
  - by rewrite !lookup_alter_ne.
Qed.

Lemma stamp_event_lookup (w : world) (m : dict) (k : string) :
  ∃ m', stamp_event w (VDict m) = VDict m' ∧
        m' !! k = if decide (k = "createdAt") then as_text w <$> m !! k
                  else m !! k.
Proof.
  eexists. split; [done|]. case_decide; subst.
  - by rewrite lookup_alter_eq.
  - by rewrite lookup_alter_ne.
Qed.

Lemma stamp_deployment_lookup (w : world) (m : dict) (k : string) :
  ∃ m', stamp_deployment w (VDict m) = VDict m' ∧
        m' !! k = if decide (k = "createdAt" ∨ k = "updatedAt")
                  then as_text w <$> m !! k
                  else m !! k.
Proof.
  eexists. split; [done|]. case_decide as Hk.
  - destruct Hk as [->| ->].
    + by rewrite lookup_alter_ne, lookup_alter_eq.
    + by rewrite lookup_alter_eq, lookup_alter_ne.
  - rewrite !lookup_alter_ne; [done|naive_solver..].
Qed.

(** [jsonize] in closed form on such services. *)
Lemma jsonize_jsonized (w : world) (s : dict) :
  stamped_lists s → jsonize w s = Return (jsonized w s).
Proof.
  intros Hs. unfold jsonize.
  rewrite (for_each_in_alter "deployments" (stamp_deployment w)).
  - simpl. rewrite (for_each_in_alter "events" (stamp_event w)); [done|..].
    + intros m. apply stringify_alter.
    + intros v. rewrite lookup_alter_ne by done. apply Hs.
      apply list_elem_of_In. simpl. tauto.
  - intros m. rewrite stringify_alter. simpl. apply stringify_alter.
  - intros v. apply Hs. apply list_elem_of_In. simpl. tauto.
Qed.

(** X8.  On a service whose deployments and events, where present, are
    lists of dicts, [jsonize] raises nothing and returns the service in
    which createdAt and updatedAt of every deployment and createdAt of every
    event are replaced by [str] of their value; keys that are missing stay
    missing and nothing else changes. *)
Theorem jsonize_closed_form (w : world) (s : dict) :
  stamped_lists s →
  ∃ s' : dict,
    jsonize w s = Return s' ∧
    s' !! "deployments" = on_items (stamp_deployment w) <$> s !! "deployments" ∧
    s' !! "events" = on_items (stamp_event w) <$> s !! "events" ∧
    ∀ k, k ≠ "deployments" → k ≠ "events" → s' !! k = s !! k.
Proof.
  intros Hs. exists (jsonized w s). split; [by apply jsonize_jsonized|].
  repeat split.
  - by rewrite jsonized_lookup.
  - by rewrite jsonized_lookup.
  - intros k Hd He. rewrite jsonized_lookup. by repeat case_decide.
Qed.

Lemma stamped_lists_sample (status : string) : stamped_lists (Sample.web status).
Proof.
  intros field v Hfield Hv.
  apply list_elem_of_In in Hfield. simpl in Hfield.
  destruct Hfield as [<-|[<-|[]]];
    vm_compute in Hv; injection Hv as <-; reflexivity.
Defined.

Lemma jsonize_closed_form_witness :
  ∃ s' : dict,
    jsonize (Sample.steady "ACTIVE") (Sample.web "ACTIVE") = Return s' ∧
    s' !! "deployments" =
      Some (VList [stamp_deployment (Sample.steady "ACTIVE") Sample.deployment]) ∧
    s' !! "events" =
      Some (VList [stamp_event (Sample.steady "ACTIVE") Sample.event]) ∧
    ∀ k, k ≠ "deployments" → k ≠ "events" →
         s' !! k = Sample.web "ACTIVE" !! k.
Proof.
  apply (jsonize_closed_form (Sample.steady "ACTIVE") (Sample.web "ACTIVE")).
  apply stamped_lists_sample.
Defined.

Lemma on_items_idemp (f : value → value) (v : value) :
  (∀ x, f (f x) = f x) → on_items f (on_items f v) = on_items f v.
Proof.
  intros Hf. destruct v; try done. simpl. f_equal.
  rewrite <- list_fmap_compose. apply list_fmap_ext. intros _ x _. apply Hf.
Qed.

Lemma stamp_event_idemp (w : world) (d : value) :
  stamp_event w (stamp_event w d) = stamp_event w d.
Proof.
  destruct d; try done. simpl. f_equal. apply map_eq. intros k.
  destruct (decide (k = "createdAt")) as [->|].
  - rewrite !lookup_alter_eq. by destruct (d !! "createdAt").
  - by rewrite !lookup_alter_ne.
Qed.

Lemma stamped_twice_lookup (w : world) (m : dict) (k : string) :
  alter (as_text w) "updatedAt" (alter (as_text w) "createdAt" m) !! k =
    if decide (k = "createdAt" ∨ k = "updatedAt") then as_text w <$> m !! k
    else m !! k.
Proof.
  destruct (stamp_deployment_lookup w m k) as (m' & [= <-] & Hm'). done.
Qed.

Lemma stamp_deployment_idemp (w : world) (d : value) :
  stamp_deployment w (stamp_deployment w d) = stamp_deployment w d.
Proof.
  destruct d; try done. simpl. f_equal. apply map_eq. intros k.
  rewrite !stamped_twice_lookup. case_decide; [|done].
  by destruct (d !! k).
Qed.

Lemma jsonized_idemp (w : world) (s : dict) :
  jsonized w (jsonized w s) = jsonized w s.
Proof.
  apply map_eq. intros k. rewrite (jsonized_lookup w (jsonized w s)).
  rewrite !jsonized_lookup. repeat case_decide; try done.
  - destruct (s !! k); [|done]. simpl. f_equal.
    apply on_items_idemp, stamp_event_idemp.
  - destruct (s !! k); [|done]. simpl. f_equal.
    apply on_items_idemp, stamp_deployment_idemp.
Qed.

Lemma on_items_dicts (f : value → value) (v : value) :
  (∀ m, is_dict (f (VDict m)) = true) →
  list_of_dicts v = true → list_of_dicts (on_items f v) = true.
Proof.
  intros Hf. destruct v; try done. simpl.
  induction l as [|x l IH]; [done|]. simpl.
  intros [Hx Hl]%andb_true_iff. destruct x; try done.
  apply andb_true_iff. split; [apply Hf | by apply IH].
Qed.

Lemma stamped_lists_jsonized (w : world) (s : dict) :
  stamped_lists s → stamped_lists (jsonized w s).
Proof.
  intros Hs field v Hfield. rewrite jsonized_lookup.
  repeat case_decide; subst.
  - destruct (s !! "events") as [v0|] eqn:Hv; [|done]. intros [= <-].
    apply on_items_dicts; [done|]. by apply (Hs "events").
  - destruct (s !! "deployments") as [v0|] eqn:Hv; [|done]. intros [= <-].
    apply on_items_dicts; [done|]. by apply (Hs "deployments").
  - apply list_elem_of_In in Hfield. simpl in Hfield.
    destruct Hfield as [<-|[<-|[]]]; congruence.
Qed.

(** X9.  [jsonize] is idempotent on such services: run on its own result
    it returns that result unchanged, the timestamps being text already. *)
Theorem jsonize_idempotent (w : world) (s s' : dict) :
  stamped_lists s →
  jsonize w s = Return s' →
  jsonize w s' = Return s'.
Proof.
  intros Hs. rewrite jsonize_jsonized by done. intros [= <-].
  rewrite jsonize_jsonized by by apply stamped_lists_jsonized.
  by rewrite jsonized_idemp.
Qed.

Lemma jsonize_idempotent_witness :
  jsonize (Sample.steady "ACTIVE")
    (jsonized (Sample.steady "ACTIVE") (Sample.web "ACTIVE")) =
  Return (jsonized (Sample.steady "ACTIVE") (Sample.web "ACTIVE")).
Proof.
  apply (jsonize_idempotent (Sample.steady "ACTIVE") (Sample.web "ACTIVE")).
  - apply stamped_lists_sample.
  - reflexivity.
Defined.

(** X10.  After [jsonize], on such services, no deployment holds anything
    but text under createdAt or updatedAt, and no event under createdAt:
    the datetime objects are gone. *)
Theorem jsonize_leaves_text (w : world) (s s' : dict) :
  stamped_lists s →
  jsonize w s = Return s' →
  (∀ l d, s' !! "deployments" = Some (VList l) → d ∈ l →
          text_under "createdAt" d ∧ text_under "updatedAt" d) ∧
  (∀ l d, s' !! "events" = Some (VList l) → d ∈ l →
          text_under "createdAt" d).
Proof.
  intros Hs. rewrite jsonize_jsonized by done. intros [= <-].
  split; intros l d; rewrite jsonized_lookup; simpl.
  - destruct (s !! "deployments") as [v|] eqn:Hv; [|done].
    pose proof (Hs "deployments" v ltac:(set_solver) Hv) as Hshape.
    destruct v; try done. simpl. intros [= <-].
    intros (d0 & -> & Hd0)%list_elem_of_fmap.
    simpl in Hshape. rewrite forallb_forall in Hshape.
    apply list_elem_of_In, Hshape in Hd0. destruct d0; try done.
    split.
    + destruct (stamp_deployment_lookup w d "createdAt") as (m' & -> & Hm').
      intros v. rewrite Hm'. simpl.
      destruct (d !! "createdAt"); [|done]. intros [= <-]. by eexists.
    + destruct (stamp_deployment_lookup w d "updatedAt") as (m' & -> & Hm').
      intros v. rewrite Hm'. simpl.
      destruct (d !! "updatedAt"); [|done]. intros [= <-]. by eexists.
  - destruct (s !! "events") as [v|] eqn:Hv; [|done].
    pose proof (Hs "events" v ltac:(set_solver) Hv) as Hshape.
    destruct v; try done. simpl. intros [= <-].
    intros (d0 & -> & Hd0)%list_elem_of_fmap.
    simpl in Hshape. rewrite forallb_forall in Hshape.
    apply list_elem_of_In, Hshape in Hd0. destruct d0; try done.
    destruct (stamp_event_lookup w d "createdAt") as (m' & -> & Hm').
    intros v. rewrite Hm'. simpl.
    destruct (d !! "createdAt"); [|done]. intros [= <-]. by eexists.
Qed.

Lemma jsonize_leaves_text_witness :
  text_under "createdAt"
    (stamp_deployment (Sample.steady "ACTIVE") Sample.deployment) ∧
  text_under "updatedAt"
    (stamp_deployment (Sample.steady "ACTIVE") Sample.deployment).
Proof.
  refine (proj1 (jsonize_leaves_text (Sample.steady "ACTIVE")
                   (Sample.web "ACTIVE") _ (stamped_lists_sample _) eq_refl)
            [stamp_deployment (Sample.steady "ACTIVE") Sample.deployment]
            _ eq_refl _).
  apply list_elem_of_here.
Defined.

(** X11.  A service whose deployments is not a container (None, an int,
    a datetime) makes [jsonize] raise the TypeError of iterating it. *)
Theorem jsonize_not_iterable (w : world) (s : dict) (v : value) :
  s !! "deployments" = Some v →
  v = VNone ∨ (∃ n, v = VInt n) ∨ (∃ t, v = VDatetime t) →
  jsonize w s =
    Raise (TypeError ("'" +:+ type_name v +:+ "' object is not iterable")).
Proof.
  intros Hv Hkind. unfold jsonize, for_each_in. rewrite Hv.
  by destruct Hkind as [->|[[n ->]|[t ->]]].
Qed.

Lemma jsonize_not_iterable_witness :
  jsonize (Sample.steady "ACTIVE")
    (<["deployments" := VNone]> (Sample.web "ACTIVE")) =
    Raise (TypeError "'NoneType' object is not iterable").
Proof.
  apply (jsonize_not_iterable (Sample.steady "ACTIVE")
           (<["deployments" := VNone]> (Sample.web "ACTIVE")) VNone).
  - reflexivity.
  - left. reflexivity.
Defined.

(** ** [is_matching_service], [create_service] and [update_service] in
    state=present *)

(** X12.  [is_matching_service] stops at the first difference: when the
    desired task_definition is not the service's taskDefinition the answer
    is False whatever else the service holds, even without loadBalancers or
    desiredCount; a service without taskDefinition is a KeyError. *)
Theorem is_matching_service_stops_early (expected : Params) (existing : dict) :
  (∀ td, existing !! "taskDefinition" = Some td →
         of_opt VStr (task_definition expected) ≠ td →
         is_matching_service expected existing = Return false) ∧
  (existing !! "taskDefinition" = None →
   is_matching_service expected existing = Raise (KeyError "taskDefinition")).
Proof.
  unfold is_matching_service, py_getitem. split.
  - intros td -> Hne%py_eq_false. simpl. by rewrite Hne.
  - by intros ->.
Qed.

Lemma is_matching_service_stops_early_witness :
  is_matching_service (Sample.spec present (Some "web:2") None 10)
    {[ "taskDefinition" := VStr "web:1" ]} = Return false ∧
  is_matching_service (Sample.spec present (Some "web:2") None 10) ∅
    = Raise (KeyError "taskDefinition").
Proof.
  split.
  - refine (proj1 (is_matching_service_stops_early
                     (Sample.spec present (Some "web:2") None 10)
                     {[ "taskDefinition" := VStr "web:1" ]})
              (VStr "web:1") eq_refl _).
    discriminate.
  - refine (proj2 (is_matching_service_stops_early
                     (Sample.spec present (Some "web:2") None 10) ∅) eq_refl).
Defined.

Lemma run_create_service (w : world) (p : Params) (log : list call) :
  let ecs_args :=
    create_args (name p) (cluster p) (task_definition p) (load_balancers p)
      (desired_count p) (client_token p) (role p) in
  create_service w (name p) (cluster p) (task_definition p) (load_balancers p)
    (desired_count p) (client_token p) (role p) log =
  (signal (response ← ecs_create_service w ecs_args; jsonize w response),
   log ++ [CreateService ecs_args])%list.
Proof.
  intros ecs_args. subst ecs_args. unfold create_service, create_args.
  rewrite run_bind, run_remote.
  destruct (ecs_create_service w _) as [response|e]; [|done].
  simpl. by rewrite run_lift.
Qed.

(** The payload of a create, key by key. *)
Lemma create_args_lookup (service_name : string)
    (cluster_name task : option string) (lbs : option (list value))
    (count : option Z) (token role_name : option string) :
  let payload :=
    create_args service_name cluster_name task lbs count token role_name in
  payload !! "serviceName" = Some (VStr service_name) ∧
  payload !! "taskDefinition" = Some (of_opt VStr task) ∧
  payload !! "desiredCount" = Some (of_opt VInt count) ∧
  payload !! "cluster" = VStr <$> cluster_name ∧
  payload !! "loadBalancers" = VList <$> lbs ∧
  payload !! "clientToken" = VStr <$> token ∧
  payload !! "role" = VStr <$> role_name ∧
  ∀ k, k ∉ ["serviceName"; "taskDefinition"; "desiredCount"; "cluster";
            "loadBalancers"; "clientToken"; "role"] →
       payload !! k = None.
Proof.
  unfold create_args, update_if_given.
  destruct cluster_name, lbs, token, role_name; simpl;
    (repeat split;
     [..| intros k Hk; repeat rewrite lookup_insert_ne by set_solver;
          apply lookup_singleton_ne; set_solver]);
    by simplify_map_eq.
Qed.

Lemma state_present_create (w : world) (module : AnsibleModule)
    (existing : option dict) (log : list call) :
  let p := params module in
  let ecs_args :=
    create_args (name p) (cluster p) (task_definition p) (load_balancers p)
      (desired_count p) (client_token p) (role p) in
  check_mode module = false →
  active existing = false →
  desired_count p ≠ None → task_definition p ≠ None →
  state_present w module existing no_results log =
    (match response ← ecs_create_service w ecs_args; jsonize w response with
     | Return created =>
         inr {| changed := true; service := Some created; ansible_facts := None |}
     | Raise e => inl (Raised e)
     end, log ++ [CreateService ecs_args])%list.
Proof.
  intros p ecs_args Hcheck Hactive Hcount Htask. unfold state_present. fold p.
  rewrite run_bind, classify_create by done. simpl. rewrite Hcheck. simpl.
  rewrite !run_bind. unfold update_or_create.
  rewrite bool_decide_eq_false_2 by done. simpl.
  rewrite run_bind, bool_decide_eq_false_2 by done. simpl.
  rewrite run_create_service. fold ecs_args.
  by destruct (_ ≫= _).
Qed.

(** X13.  Outside check mode, when the service is not there or not ACTIVE
    and both task_definition and desired_count are set, a state=present run
    issues, after the describe, exactly one call: a create.  Its payload
    has serviceName, taskDefinition and desiredCount, and each of cluster,
    loadBalancers, clientToken and role exactly when the parameter is set:
    an empty load_balancers list is sent as an empty list, an unset one is
    left out.  The run exits with changed=true and the created service as
    [jsonize] leaves it, unless the create or [jsonize] raises, which
    nothing catches. *)
Theorem create_sends_required_and_given (w : world) (module : AnsibleModule)
    (existing : option dict) (task : string) (count : Z) :
  let p := params module in
  state p = present →
  check_mode module = false →
  fetched w p 0 = Return existing →
  active existing = false →
  task_definition p = Some task →
  desired_count p = Some count →
  ∃ payload : dict,
    (main w module).2 = [describe_call p; CreateService payload] ∧
    payload !! "serviceName" = Some (VStr (name p)) ∧
    payload !! "taskDefinition" = Some (VStr task) ∧
    payload !! "desiredCount" = Some (VInt count) ∧
    payload !! "cluster" = VStr <$> cluster p ∧
    payload !! "loadBalancers" = VList <$> load_balancers p ∧
    payload !! "clientToken" = VStr <$> client_token p ∧
    payload !! "role" = VStr <$> role p ∧
    (∀ k, k ∉ ["serviceName"; "taskDefinition"; "desiredCount"; "cluster";
               "loadBalancers"; "clientToken"; "role"] →
          payload !! k = None) ∧
    (main w module).1 =
      match response ← ecs_create_service w payload; jsonize w response with
      | Return created =>
          ExitJson {| changed := true; service := Some created;
                      ansible_facts := None |}
      | Raise e => Raised e
      end.
Proof.
  intros p Hstate Hcheck Hfetch Hactive Htask Hcount.
  exists (create_args (name p) (cluster p) (task_definition p) (load_balancers p)
            (desired_count p) (client_token p) (role p)).
  destruct (create_args_lookup (name p) (cluster p) (task_definition p)
              (load_balancers p) (desired_count p) (client_token p) (role p))
    as (Hn & Ht & Hd & Hc & Hl & Hk & Hr & Hrest).
  assert (of_opt VStr (task_definition p) = VStr task) as Ht'
    by by rewrite Htask.
  assert (of_opt VInt (desired_count p) = VInt count) as Hd'
    by by rewrite Hcount.
  rewrite Ht' in Ht. rewrite Hd' in Hd.
  rewrite (main_fetched _ _ _ Hfetch). unfold in_state. fold p. rewrite Hstate.
  rewrite state_present_create; try done; fold p; [|congruence..].
  by destruct (_ ≫= _).
Qed.

Lemma create_sends_required_and_given_witness :
  ∃ payload : dict,
    (main (Sample.remote (λ _, Sample.missing))
          (Sample.run present (Some "web:1") (Some 2%Z) 10 false)).2 =
      [describe_call (Sample.spec present (Some "web:1") (Some 2%Z) 10);
       CreateService payload] ∧
    payload !! "serviceName" = Some (VStr "web") ∧
    payload !! "taskDefinition" = Some (VStr "web:1") ∧
    payload !! "desiredCount" = Some (VInt 2) ∧
    payload !! "cluster" = None ∧
    payload !! "loadBalancers" = None ∧
    payload !! "clientToken" = None ∧
    payload !! "role" = None ∧
    (∀ k, k ∉ ["serviceName"; "taskDefinition"; "desiredCount"; "cluster";
               "loadBalancers"; "clientToken"; "role"] →
          payload !! k = None) ∧
    (main (Sample.remote (λ _, Sample.missing))
          (Sample.run present (Some "web:1") (Some 2%Z) 10 false)).1 =
      match response ← ecs_create_service (Sample.remote (λ _, Sample.missing)) payload;
            jsonize (Sample.remote (λ _, Sample.missing)) response with
      | Return created =>
          ExitJson {| changed := true; service := Some created;
                      ansible_facts := None |}
      | Raise e => Raised e
      end.
Proof.
  apply (create_sends_required_and_given (Sample.remote (λ _, Sample.missing))
           (Sample.run present (Some "web:1") (Some 2%Z) 10 false)
           None "web:1" 2%Z); reflexivity.
Defined.

(** X14.  Outside check mode, when the existing ACTIVE service differs from
    the DesiredSpec in its load balancers only, a state=present run still
    issues an update, and that update carries no loadBalancers: the run
    reports changed=true on every pass while the difference stays. *)
Theorem load_balancer_drift_not_sent (w : world) (module : AnsibleModule)
    (existing : dict) (lbs : value) :
  let p := params module in
  state p = present →
  check_mode module = false →
  fetched w p 0 = Return (Some existing) →
  existing !! "status" = Some (VStr "ACTIVE") →
  existing !! "taskDefinition" = Some (of_opt VStr (task_definition p)) →
  existing !! "loadBalancers" = Some lbs →
  VList (default [] (load_balancers p)) ≠ lbs →
  ∃ payload : dict,
    (main w module).2 = [describe_call p; UpdateService payload] ∧
    payload !! "loadBalancers" = None ∧
    ∀ updated, (response ← ecs_update_service w payload; jsonize w response)
                 = Return updated →
      (main w module).1 =
        ExitJson {| changed := true; service := Some updated;
                    ansible_facts := None |}.
Proof.
  intros p Hstate Hcheck Hfetch Hstatus Htd Hlbs Hne.
  exists (update_args (name p) (cluster p) (task_definition p) (desired_count p)).
  destruct (update_args_lookup (name p) (cluster p) (task_definition p)
              (desired_count p)) as (_ & _ & _ & _ & Hrest).
  rewrite (main_fetched _ _ _ Hfetch). unfold in_state. fold p. rewrite Hstate.
  rewrite state_present_update; [|done|by apply active_status|].
  - fold p. split; [by destruct (_ ≫= _)|]. split.
    + apply Hrest. intros Hin%list_elem_of_In. simpl in Hin.
      by repeat destruct Hin as [Hin|Hin].
    + by intros updated ->.
  - unfold is_matching_service, py_getitem. rewrite Htd. simpl.
    unfold py_eq at 1. rewrite bool_decide_eq_true_2 by done. simpl.
    rewrite Hlbs. simpl. rewrite py_or_list.
    apply py_eq_false in Hne. unfold p in Hne. by rewrite Hne.
Qed.

Lemma load_balancer_drift_not_sent_witness :
  let lb : value :=
    VDict {[ "loadBalancerName" := VStr "front"; "containerName" := VStr "app";
             "containerPort" := VInt 80 ]} in
  let w := Sample.remote (λ _, Sample.found
             (<["loadBalancers" := VList [lb]]> (Sample.web "ACTIVE"))) in
  ∃ payload : dict,
    (main w (Sample.run present (Some "web:1") (Some 2%Z) 10 false)).2 =
      [describe_call (Sample.spec present (Some "web:1") (Some 2%Z) 10);
       UpdateService payload] ∧
    payload !! "loadBalancers" = None ∧
    ∀ updated, (response ← ecs_update_service w payload; jsonize w response)
                 = Return updated →
      (main w (Sample.run present (Some "web:1") (Some 2%Z) 10 false)).1 =
        ExitJson {| changed := true; service := Some updated;
                    ansible_facts := None |}.
Proof.
  intros lb w.
  apply (load_balancer_drift_not_sent w
           (Sample.run present (Some "web:1") (Some 2%Z) 10 false)
           (<["loadBalancers" := VList [lb]]> (Sample.web "ACTIVE"))
           (VList [lb])); try reflexivity.
  discriminate.
Defined.

(** ** state=absent beyond the INACTIVE service *)

(** X15.  A state=absent run that finds no service exits with
    changed=false, without ansible_facts, after the describe alone, in and
    out of check mode. *)
Theorem absent_not_found (w : world) (module : AnsibleModule) :
  let p := params module in
  state p = absent →
  fetched w p 0 = Return None →
  main w module = (ExitJson no_results, [describe_call p]).
Proof.
  intros p Hstate Hfetch.
  rewrite (main_fetched _ _ _ Hfetch). unfold in_state. fold p.
  by rewrite Hstate.
Qed.

Lemma absent_not_found_witness :
  main (Sample.remote (λ _, Sample.missing)) (Sample.run absent None None 10 false)
    = (ExitJson no_results, [describe_call (Sample.spec absent None None 10)]).
Proof.
  apply (absent_not_found (Sample.remote (λ _, Sample.missing))
           (Sample.run absent None None 10 false)); reflexivity.
Defined.

Lemma delete_args_lookup (service_name : string) (cluster_name : option string) :
  let payload := delete_args service_name cluster_name in
  payload !! "service" = Some (VStr service_name) ∧
  payload !! "cluster" = VStr <$> cluster_name ∧
  ∀ k, k ≠ "service" → k ≠ "cluster" → payload !! k = None.
Proof.
  unfold delete_args, update_if_given.
  destruct cluster_name; simpl; repeat split; try by simplify_map_eq.
  - intros k Hs Hc. rewrite lookup_insert_ne by done.
    by apply lookup_singleton_ne.
  - intros k Hs Hc. by apply lookup_singleton_ne.
Qed.

(** The two [del] statements and the test on the status, for a service
    that has both keys. *)
Lemma run_state_absent (w : world) (module : AnsibleModule) (existing : dict)
    (deployments events : value) (log : list call) :
  let p := params module in
  let facts := delete "events" (delete "deployments" existing) in
  exists_ (Some existing) = true →
  existing !! "deployments" = Some deployments →
  existing !! "events" = Some events →
  existing !! "status" ≠ Some (VStr "INACTIVE") →
  state_absent w module (Some existing) no_results log =
    ((if negb (check_mode module)
      then try_except (delete_service w (name p) (cluster p))
             is_ClientError (λ e, fail_json (str_exception e))
      else mret ()) ≫= λ _,
     mret {| changed := true; service := None; ansible_facts := Some facts |})
      log.
Proof.
  intros p facts Hexists Hdeployments Hevents Hstatus.
  unfold state_absent. fold p. rewrite Hexists. simpl.
  rewrite run_bind, run_lift. unfold py_delitem at 1. rewrite Hdeployments. simpl.
  rewrite run_bind, run_lift. unfold py_delitem.
  rewrite lookup_delete_ne, Hevents by done. simpl.
  rewrite status_is_eq, bool_decide_eq_false_2; [done|].
  by rewrite !lookup_delete_ne.
Qed.

(** X16.  A state=absent run that finds the service with a status other
    than INACTIVE reports changed=true with the service, less deployments
    and events, as ansible_facts.  In check mode it makes no further call.
    Otherwise it issues exactly one delete, addressed by service name and,
    when given, cluster; a ClientError from the delete is turned into
    [fail_json] with the error's message, any other exception goes
    uncaught. *)
Theorem absent_deletes_once (w : world) (module : AnsibleModule)
    (existing : dict) (deployments events : value) :
  let p := params module in
  let done_ := ExitJson {| changed := true; service := None;
                           ansible_facts :=
                             Some (delete "events" (delete "deployments" existing)) |} in
  state p = absent →
  fetched w p 0 = Return (Some existing) →
  existing !! "deployments" = Some deployments →
  existing !! "events" = Some events →
  existing !! "status" ≠ Some (VStr "INACTIVE") →
  ∃ payload : dict,
    payload !! "service" = Some (VStr (name p)) ∧
    payload !! "cluster" = VStr <$> cluster p ∧
    (∀ k, k ≠ "service" → k ≠ "cluster" → payload !! k = None) ∧
    main w module =
      if check_mode module then (done_, [describe_call p])
      else (match ecs_delete_service w payload with
            | Return _ => done_
            | Raise e => if is_ClientError e then FailJson (str_exception e)
                         else Raised e
            end,
            [describe_call p; DeleteService payload]).
Proof.
  intros p done_ Hstate Hfetch Hdeployments Hevents Hstatus.
  exists (delete_args (name p) (cluster p)).
  destruct (delete_args_lookup (name p) (cluster p)) as (Hs & Hc & Hrest).
  repeat split; try done.
  rewrite (main_fetched _ _ _ Hfetch). unfold in_state. fold p. rewrite Hstate.
  rewrite (run_state_absent _ _ _ deployments events);
    [|by apply (fetched_true w p 0)|done..].
  fold p. rewrite run_bind. destruct (check_mode module); simpl; [done|].
  unfold try_except, delete_service. rewrite run_remote.
  destruct (ecs_delete_service w _) as [[]|e]; simpl; [done|].
  by destruct (is_ClientError e).
Qed.

Lemma absent_deletes_once_witness :
  ∃ payload : dict,
    payload !! "service" = Some (VStr "web") ∧
    payload !! "cluster" = None ∧
    (∀ k, k ≠ "service" → k ≠ "cluster" → payload !! k = None) ∧
    main (Sample.steady "ACTIVE") (Sample.run absent None None 10 false) =
      (match ecs_delete_service (Sample.steady "ACTIVE") payload with
       | Return _ =>
           ExitJson {| changed := true; service := None;
                       ansible_facts :=
                         Some (delete "events"
                                 (delete "deployments" (Sample.web "ACTIVE"))) |}
       | Raise e => if is_ClientError e then FailJson (str_exception e)
                    else Raised e
       end,
       [describe_call (Sample.spec absent None None 10); DeleteService payload]).
Proof.
  apply (absent_deletes_once (Sample.steady "ACTIVE")
           (Sample.run absent None None 10 false) (Sample.web "ACTIVE")
           (VList [Sample.deployment]) (VList [Sample.event]));
    try reflexivity.
  discriminate.
Defined.

(** X17.  A state=absent run on a service that lacks the key deployments,
    or has it but lacks events, ends in the KeyError of the [del]
    statement, uncaught, before any delete. *)
Theorem absent_del_missing_key (w : world) (module : AnsibleModule)
    (existing : dict) :
  let p := params module in
  state p = absent →
  fetched w p 0 = Return (Some existing) →
  (existing !! "deployments" = None →
   main w module = (Raised (KeyError "deployments"), [describe_call p])) ∧
  (is_Some (existing !! "deployments") → existing !! "events" = None →
   main w module = (Raised (KeyError "events"), [describe_call p])).
Proof.
  intros p Hstate Hfetch.
  rewrite (main_fetched _ _ _ Hfetch). unfold in_state. fold p. rewrite Hstate.
  unfold state_absent. rewrite (fetched_true w p 0 _ Hfetch). simpl.
  split.
  - intros Hnone. rewrite run_bind, run_lift. unfold py_delitem.
    by rewrite Hnone.
  - intros [v Hv] Hnone. rewrite run_bind, run_lift. unfold py_delitem at 1.
    rewrite Hv. simpl. rewrite run_bind, run_lift. unfold py_delitem.
    by rewrite lookup_delete_ne, Hnone.
Qed.

Lemma absent_del_missing_key_witness :
  main (Sample.remote (λ _, Sample.found (delete "deployments" (Sample.web "ACTIVE"))))
       (Sample.run absent None None 10 false) =
    (Raised (KeyError "deployments"),
     [describe_call (Sample.spec absent None None 10)]).
Proof.
  refine (proj1 (absent_del_missing_key
                   (Sample.remote (λ _, Sample.found
                                          (delete "deployments" (Sample.web "ACTIVE"))))
                   (Sample.run absent None None 10 false)
                   (delete "deployments" (Sample.web "ACTIVE")) eq_refl eq_refl)
            eq_refl).
Defined.

(** ** state=deleting beyond the successful wait *)

(** X18.  A state=deleting run that finds no service fails at once through
    [fail_json], naming the service; it neither sleeps nor polls. *)
Theorem deleting_not_found (w : world) (module : AnsibleModule) :
  let p := params module in
  state p = deleting →
  fetched w p 0 = Return None →
  main w module =
    (FailJson ("Service '" +:+ name p +:+ " not found."), [describe_call p]).
Proof.
  intros p Hstate Hfetch.
  rewrite (main_fetched _ _ _ Hfetch). unfold in_state. fold p.
  by rewrite Hstate.
Qed.

Lemma deleting_not_found_witness :
  main (Sample.remote (λ _, Sample.missing)) (Sample.run deleting None None 10 false)
    = (FailJson "Service 'web not found.",
       [describe_call (Sample.spec deleting None None 10)]).
Proof.
  apply (deleting_not_found (Sample.remote (λ _, Sample.missing))
           (Sample.run deleting None None 10 false)); reflexivity.
Defined.

Lemma sleeps_app (log ext : list call) :
  sleeps (log ++ ext) = sleeps log + sleeps ext.
Proof. unfold sleeps. by rewrite filter_app, length_app. Qed.

(** X19.  A state=deleting run in which none of the [repeat] polls finds
    the service INACTIVE, for [repeat] from 1 to 257: it fails through
    [fail_json] with the message that names [repeat] and [delay], after the
    first describe and exactly [repeat] polls; it has slept [repeat + 1]
    times by then, once before the first poll and once after every poll, the
    last one included. *)
Theorem deleting_times_out (w : world) (module : AnsibleModule)
    (existing : dict) :
  let p := params module in
  state p = deleting →
  (0 ≤ delay p)%Z →
  fetched w p 0 = Return (Some existing) →
  (1 ≤ repeat p ≤ 257)%Z →
  (∀ q, (1 ≤ q ≤ Z.to_nat (repeat p))%nat →
     ∃ status, status_at w p q = Return status ∧ status ≠ VStr "INACTIVE") →
  main w module =
    (FailJson ("Service still not deleted after " +:+ pretty (repeat p) +:+
               " tries of " +:+ pretty (delay p) +:+ " seconds each."),
     describe_call p ::
       rounds (Z.to_nat (repeat p)) [Sleep (delay p); describe_call p] ++
       [Sleep (delay p)])%list ∧
  describes_so_far (main w module).2 = S (Z.to_nat (repeat p)) ∧
  sleeps (main w module).2 = S (Z.to_nat (repeat p)).
Proof.
  intros p Hstate Hdelay Hfetch Hrepeat Hnever.
  rewrite (deleting_exhausted w module existing); try done; try (fold p; lia).
  fold p. unfold small_int.
  destruct (Z.leb_spec (-5) (repeat p - 1)); [|lia].
  destruct (Z.leb_spec (repeat p - 1) 256); [|lia]. simpl.
  split; [done|]. split.
  - change (describe_call p :: ?l) with ([describe_call p] ++ l)%list.
    rewrite !describes_so_far_app, rounds_describes.
    change (describes_so_far [describe_call p]) with 1.
    change (describes_so_far [Sleep (delay p)]) with 0. lia.
  - change (describe_call p :: ?l) with ([describe_call p] ++ l)%list.
    rewrite !sleeps_app. unfold sleeps at 2. rewrite rounds_sleeps.
    change (sleeps [describe_call p]) with 0.
    change (sleeps [Sleep (delay p)]) with 1. lia.
Qed.

Lemma deleting_times_out_witness :
  main (Sample.steady "DRAINING") (Sample.run deleting None None 2 false) =
    (FailJson "Service still not deleted after 2 tries of 5 seconds each.",
     [describe_call (Sample.spec deleting None None 2);
      Sleep 5; describe_call (Sample.spec deleting None None 2);
      Sleep 5; describe_call (Sample.spec deleting None None 2);
      Sleep 5]) ∧
  describes_so_far
    (main (Sample.steady "DRAINING") (Sample.run deleting None None 2 false)).2 = 3 ∧
  sleeps
    (main (Sample.steady "DRAINING") (Sample.run deleting None None 2 false)).2 = 3.
Proof.
  refine (deleting_times_out (Sample.steady "DRAINING")
            (Sample.run deleting None None 2 false) (Sample.web "DRAINING")
            eq_refl _ eq_refl _ _).
  - discriminate.
  - split; discriminate.
  - intros q _. exists (VStr "DRAINING"). split; [reflexivity|discriminate].
Defined.

(** X20.  The same run with [repeat] of 258 or more: the loop variable and
    [repeat-1] are equal but, beyond the ints CPython shares, not the same
    object, so the test [i is repeat-1] fails and the run exits with
    changed=false instead of reporting the timeout. *)
Theorem deleting_long_wait_exits_unchanged (w : world) (module : AnsibleModule)
    (existing : dict) :
  let p := params module in
  state p = deleting →
  (0 ≤ delay p)%Z →
  fetched w p 0 = Return (Some existing) →
  (258 ≤ repeat p)%Z →
  (∀ q, (1 ≤ q ≤ Z.to_nat (repeat p))%nat →
     ∃ status, status_at w p q = Return status ∧ status ≠ VStr "INACTIVE") →
  main w module =
    (ExitJson {| changed := false; service := None; ansible_facts := None |},
     describe_call p ::
       rounds (Z.to_nat (repeat p)) [Sleep (delay p); describe_call p] ++
       [Sleep (delay p)])%list.
Proof.
  intros p Hstate Hdelay Hfetch Hrepeat Hnever.
  rewrite (deleting_exhausted w module existing); try done; try (fold p; lia).
  fold p. unfold small_int.
  destruct (Z.leb_spec (repeat p - 1) 256); [lia|].
  by rewrite andb_false_r.
Qed.

Lemma deleting_long_wait_exits_unchanged_witness :
  (main (Sample.steady "DRAINING") (Sample.run deleting None None 258 false)).1 =
    ExitJson {| changed := false; service := None; ansible_facts := None |}.
Proof.
  refine (f_equal fst
            (deleting_long_wait_exits_unchanged (Sample.steady "DRAINING")
               (Sample.run deleting None None 258 false) (Sample.web "DRAINING")
               eq_refl _ eq_refl _ _)).
  - discriminate.
  - discriminate.
  - intros q _. exists (VStr "DRAINING"). split; [reflexivity|discriminate].
Defined.

Lemma run_poll_round_raise (w : world) (p : Params) (j : Z) (rest : list Z)
    (i : option Z) (results : Results) (log : list call) (e : exception) :
  status_at w p (describes_so_far log) = Raise e →
  poll w p (j :: rest) i results log =
    (inl (Raised e), (log ++ [describe_call p])%list).
Proof.
  intros Hstatus. simpl. rewrite run_bind, run_describe_service.
  unfold status_at in Hstatus.
  destruct (fetched w p (describes_so_far log)) as [existing|e'];
    simpl in *; [|by injection Hstatus as ->].
  by rewrite run_bind, run_lift, Hstatus.
Qed.

Lemma poll_until_raise (w : world) (p : Params) (k : nat) (e : exception) :
  ∀ (indices : list Z) (i : option Z) (results : Results) (log : list call),
  (0 ≤ delay p)%Z →
  (∀ j, j < k →
     ∃ status, status_at w p (describes_so_far log + j) = Return status ∧
               status ≠ VStr "INACTIVE") →
  status_at w p (describes_so_far log + k) = Raise e →
  k < length indices →
  poll w p indices i results log =
    (inl (Raised e),
     (log ++ rounds k [describe_call p; Sleep (delay p)] ++ [describe_call p])%list).
Proof.
  induction k as [|k IH]; intros indices i results log Hdelay Hbefore Hat Hlen;
    destruct indices as [|j rest]; simpl in Hlen; try lia.
  - rewrite Nat.add_0_r in Hat. by rewrite (run_poll_round_raise _ _ _ _ _ _ _ _ Hat).
  - destruct (Hbefore 0) as (status & Hstatus & Hne); [lia|].
    rewrite Nat.add_0_r in Hstatus.
    rewrite (run_poll_round _ _ _ _ _ _ _ _ Hstatus).
    apply py_eq_false in Hne. rewrite Hne.
    rewrite run_bind, run_sleep by done.
    rewrite (IH rest (Some j) results); try done; try lia.
    + rewrite rounds_succ. simpl. by rewrite <- !app_assoc.
    + intros j' Hj'. rewrite describes_so_far_sleep, describes_so_far_describe.
      destruct (Hbefore (S j')) as (st & Hst & Hst'); [lia|].
      exists st. split; [|done]. rewrite <- Hst. f_equal. lia.
    + rewrite describes_so_far_sleep, describes_so_far_describe.
      rewrite <- Hat. f_equal. lia.
Qed.

(** X21.  In the wait loop nothing catches what a poll raises.  When poll
    [k] (at most [repeat]) raises [e], in the remote call, in reading the
    response, or in the subscript [existing['status']], the run ends with
    [e] uncaught after the first describe and [k] rounds of sleep and
    describe.  In particular, when the service is gone for good and the
    fetcher returns None, the run ends in the TypeError of subscripting
    None. *)
Theorem deleting_poll_error_uncaught (w : world) (module : AnsibleModule)
    (existing : dict) (k : nat) :
  let p := params module in
  state p = deleting →
  (0 ≤ delay p)%Z →
  fetched w p 0 = Return (Some existing) →
  (1 ≤ k)%nat → (Z.of_nat k ≤ repeat p)%Z →
  (∀ q, (1 ≤ q < k)%nat →
     ∃ status, status_at w p q = Return status ∧ status ≠ VStr "INACTIVE") →
  (∀ e, status_at w p k = Raise e →
     main w module =
       (Raised e, describe_call p :: rounds k [Sleep (delay p); describe_call p])) ∧
  (fetched w p k = Return None →
   main w module =
     (Raised (TypeError "'NoneType' object has no attribute '__getitem__'"),
      describe_call p :: rounds k [Sleep (delay p); describe_call p])).
Proof.
  intros p Hstate Hdelay Hfetch Hk Hrepeat Hbefore.
  assert (∀ e, status_at w p k = Raise e →
     main w module =
       (Raised e, describe_call p :: rounds k [Sleep (delay p); describe_call p]))
    as Hraise.
  { intros e Hat.
    rewrite (main_fetched _ _ _ Hfetch). unfold in_state. fold p. rewrite Hstate.
    rewrite run_state_deleting; [|by apply (fetched_true w p 0)|done]. fold p.
    destruct k as [|k]; [lia|].
    rewrite (poll_until_raise w p k e).
    - simpl app. by rewrite rounds_shift.
    - done.
    - intros j Hj. change (describes_so_far _) with 1. apply Hbefore. lia.
    - by change (describes_so_far _) with 1.
    - rewrite range_length. lia. }
  split; [done|]. intros Hgone. apply Hraise.
  unfold status_at. by rewrite Hgone.
Qed.

Lemma deleting_poll_error_uncaught_witness :
  main (Sample.remote (λ n, if bool_decide (n < 2)
                            then Sample.found (Sample.web "DRAINING")
                            else Sample.missing))
       (Sample.run deleting None None 10 false) =
    (Raised (TypeError "'NoneType' object has no attribute '__getitem__'"),
     describe_call (Sample.spec deleting None None 10) ::
       rounds 2 [Sleep 5; describe_call (Sample.spec deleting None None 10)]).
Proof.
  refine (proj2 (deleting_poll_error_uncaught
                   (Sample.remote (λ n, if bool_decide (n < 2)
                                        then Sample.found (Sample.web "DRAINING")
                                        else Sample.missing))
                   (Sample.run deleting None None 10 false)
                   (Sample.web "DRAINING") 2 eq_refl _ eq_refl _ _ _) eq_refl).
  - discriminate.
  - repeat constructor.
  - discriminate.
  - intros [|[|q]] [Hlow Hhigh].
    + inversion Hlow.
    + exists (VStr "DRAINING"). split; [reflexivity|discriminate].
    + exfalso. do 2 apply Nat.succ_lt_mono in Hhigh. inversion Hhigh.
Defined.

(** ** The calls of a run, whatever the remote answers *)

Section Adds.
Context (P : call → Prop).

Lemma adds_ret {A : Type} (a : A) : adds P 0 (mret a).
Proof. intros log. exists []. by rewrite app_nil_r. Qed.

Lemma adds_raise {A : Type} (e : exception) : adds P 0 (@raise A e).
Proof. intros log. exists []. by rewrite app_nil_r. Qed.

Lemma adds_fail_json {A : Type} (msg : string) : adds P 0 (@fail_json A msg).
Proof. intros log. exists []. by rewrite app_nil_r. Qed.

Lemma adds_lift {A : Type} (x : except A) : adds P 0 (lift x).
Proof. destruct x; [apply adds_ret | apply adds_raise]. Qed.

Lemma adds_remote {A : Type} (c : call) (answer : except A) :
  P c → adds P 1 (remote c answer).
Proof.
  intros Hc log. exists [c]. rewrite run_remote.
  repeat split; [by apply Forall_singleton|done].
Qed.

Lemma adds_le {A : Type} (a b : nat) (m : M A) :
  (a ≤ b)%nat → adds P a m → adds P b m.
Proof.
  intros Hab Hm log. destruct (Hm log) as (ext & Hlog & Hext & Hlen).
  exists ext. repeat split; [done..|lia].
Qed.

Lemma adds_bind {A B : Type} (a b : nat) (m : M A) (f : A → M B) :
  adds P a m → (∀ x, adds P b (f x)) → adds P (a + b) (m ≫= f).
Proof.
  intros Hm Hf log. destruct (Hm log) as (ext & Hlog & Hext & Hlen).
  rewrite run_bind. destruct (m log) as [[o|x] log']; simpl in Hlog; subst log'.
  - exists ext. repeat split; [done..|lia].
  - destruct (Hf x (log ++ ext)%list) as (ext' & Hlog' & Hext' & Hlen').
    exists (ext ++ ext')%list. repeat split.
    + by rewrite Hlog', app_assoc.
    + by apply Forall_app.
    + rewrite length_app. lia.
Qed.

Lemma adds_try_except {A : Type} (a : nat) (body : M A)
    (catches : exception → bool) (handler : exception → M A) :
  adds P a body → (∀ e, adds P 0 (handler e)) →
  adds P a (try_except body catches handler).
Proof.
  intros Hbody Hhandler log. destruct (Hbody log) as (ext & Hlog & Hext & Hlen).
  unfold try_except.
  destruct (body log) as [[[r|msg|e]|x] log']; simpl in Hlog; subst log';
    try by exists ext.
  destruct (catches e); [|by exists ext].
  destruct (Hhandler e (log ++ ext)%list) as (ext' & Hlog' & Hext' & Hlen').
  exists (ext ++ ext')%list. repeat split.
  - by rewrite Hlog', app_assoc.
  - by apply Forall_app.
  - rewrite length_app. lia.
Qed.

End Adds.

Lemma adds_classify (P : call → Prop) (w : world) (p : Params)
    (existing : option dict) (results : Results) :
  adds P 0 (classify w p existing results).
Proof.
  unfold classify. destruct existing as [found|]; [|apply adds_ret].
  destruct (_ && _); [|apply adds_ret].
  apply (adds_bind P 0 0); [apply adds_lift|]. intros [|]; [|apply adds_ret].
  apply (adds_bind P 0 0); [apply adds_lift|]. intros ?. apply adds_ret.
Qed.

Lemma adds_update_or_create (w : world) (p : Params) (update : bool) :
  adds mutating 1 (update_or_create w p update).
Proof.
  unfold update_or_create. destruct update.
  - unfold update_service. apply (adds_bind mutating 1 0).
    + by apply adds_remote.
    + intros ?. apply adds_lift.
  - apply (adds_bind mutating 0 1).
    { destruct (bool_decide _); [apply adds_fail_json | apply adds_ret]. }
    intros _. apply (adds_bind mutating 0 1).
    { destruct (bool_decide _); [apply adds_fail_json | apply adds_ret]. }
    intros _. unfold create_service. apply (adds_bind mutating 1 0).
    + by apply adds_remote.
    + intros ?. apply adds_lift.
Qed.

Lemma adds_state_present (w : world) (module : AnsibleModule)
    (existing : option dict) (results : Results) :
  adds mutating 1 (state_present w module existing results).
Proof.
  unfold state_present. apply (adds_bind mutating 0 1); [apply adds_classify|].
  intros [[matching update] results']. destruct (negb matching).
  - apply (adds_bind mutating 1 0); [|intros; apply adds_ret].
    destruct (negb _); [|apply (adds_le _ 0); [lia|apply adds_ret]].
    apply (adds_bind mutating 1 0); [apply adds_update_or_create|].
    intros ?. apply adds_ret.
  - apply (adds_le _ 0); [lia|apply adds_ret].
Qed.

Lemma adds_state_absent (w : world) (module : AnsibleModule)
    (existing : option dict) (results : Results) :
  adds mutating 1 (state_absent w module existing results).
Proof.
  unfold state_absent.
  destruct existing as [found|]; [|apply (adds_le _ 0); [lia|apply adds_ret]].
  destruct (negb _); [apply (adds_le _ 0); [lia|apply adds_ret]|].
  apply (adds_bind mutating 0 1); [apply adds_lift|]. intros found1.
  apply (adds_bind mutating 0 1); [apply adds_lift|]. intros found2.
  destruct (status_is _ _); [apply (adds_le _ 0); [lia|apply adds_ret]|].
  apply (adds_bind mutating 1 0); [|intros; apply adds_ret].
  destruct (negb _); [|apply (adds_le _ 0); [lia|apply adds_ret]].
  apply adds_try_except; [|intros; apply adds_fail_json].
  unfold delete_service. by apply adds_remote.
Qed.

Lemma conclude_log (r : (outcome + Results) * list call) : (conclude r).2 = r.2.
Proof. by destruct r as [[o|results] log]. Qed.

(** X22.  A run in state present or absent makes, whatever the remote
    answers, the one describe call first and after it at most one more
    call, a create, an update or a delete: never a second describe, never a
    sleep, never two mutations. *)
Theorem one_describe_then_at_most_one_mutation (w : world)
    (module : AnsibleModule) :
  let p := params module in
  state p ≠ deleting →
  ∃ ext : list call,
    (main w module).2 = describe_call p :: ext ∧
    Forall mutating ext ∧ (length ext ≤ 1)%nat.
Proof.
  intros p Hstate.
  destruct (fetched w p 0) as [existing|e] eqn:Hfetch.
  - rewrite (main_fetched _ _ _ Hfetch), conclude_log. unfold in_state. fold p.
    destruct (state p); [| |done].
    + destruct (adds_state_present w module existing no_results [describe_call p])
        as (ext & -> & Hext & Hlen). by exists ext.
    + destruct (adds_state_absent w module existing no_results [describe_call p])
        as (ext & -> & Hext & Hlen). by exists ext.
  - rewrite (main_fetch_failed _ _ _ Hfetch). exists []. simpl.
    repeat split; [constructor|lia].
Qed.

Lemma one_describe_then_at_most_one_mutation_witness :
  ∃ ext : list call,
    (main (Sample.steady "ACTIVE")
          (Sample.run present (Some "web:2") (Some 2%Z) 10 false)).2 =
      describe_call (Sample.spec present (Some "web:2") (Some 2%Z) 10) :: ext ∧
    Forall mutating ext ∧ (length ext ≤ 1)%nat.
Proof.
  apply (one_describe_then_at_most_one_mutation (Sample.steady "ACTIVE")
           (Sample.run present (Some "web:2") (Some 2%Z) 10 false)).
  discriminate.
Defined.

(** What the wait loop adds to the log: describes of the service and sleeps
    of [delay] only, at most one of each per index. *)
Lemma poll_log (w : world) (p : Params) (indices : list Z) :
  ∀ (i : option Z) (results : Results) (log : list call),
  ∃ ext : list call,
    (poll w p indices i results log).2 = (log ++ ext)%list ∧
    Forall (λ c, c = describe_call p ∨ c = Sleep (delay p)) ext ∧
    (describes_so_far ext ≤ length indices)%nat ∧
    (sleeps ext ≤ length indices)%nat.
Proof.
  induction indices as [|j rest IH]; intros i results log.
  - exists []. simpl. rewrite app_nil_r. repeat split; [constructor|done..].
  - assert (∃ ext : list call,
              ext = [describe_call p] ∧
              Forall (λ c, c = describe_call p ∨ c = Sleep (delay p)) ext ∧
              (describes_so_far ext ≤ length (j :: rest))%nat ∧
              (sleeps ext ≤ length (j :: rest))%nat) as (one & -> & Hone).
    { eexists. split; [done|]. repeat split.
      - apply Forall_singleton. by left.
      - change (describes_so_far _) with 1. simpl. lia.
      - change (sleeps _) with 0. lia. }
    simpl poll. rewrite run_bind, run_describe_service.
    destruct (fetched w p (describes_so_far log)) as [existing|e]; simpl;
      [|by eexists].
    rewrite run_bind, run_lift.
    destruct (subscript existing "status") as [status|e]; simpl; [|by eexists].
    destruct (py_eq status (VStr "INACTIVE")); [by eexists|].
    rewrite run_bind. unfold sleep.
    destruct (delay p <? 0)%Z; [by eexists|]. rewrite run_remote. simpl.
    destruct (IH (Some j) results
                ((log ++ [describe_call p]) ++ [Sleep (delay p)])%list)
      as (ext & -> & Hext & Hdescribes & Hsleeps).
    exists ([describe_call p; Sleep (delay p)] ++ ext)%list. repeat split.
    + by rewrite <- !app_assoc.
    + apply Forall_app. split; [|done].
      apply Forall_cons. split; [by left|]. apply Forall_singleton. by right.
    + rewrite describes_so_far_app.
      change (describes_so_far [_; _]) with 1. simpl. lia.
    + rewrite sleeps_app. change (sleeps [_; _]) with 1. simpl. lia.
Qed.

(** X23.  A state=deleting run makes, whatever the remote answers, no
    create, update or delete: after the first describe every call is a
    describe with the same arguments or a sleep of [delay] seconds, and
    there are at most [repeat] further describes and at most [repeat + 1]
    sleeps (none of either when [repeat] is negative or the first sleep is
    refused). *)
Theorem deleting_only_polls_and_sleeps (w : world) (module : AnsibleModule) :
  let p := params module in
  state p = deleting →
  ∃ ext : list call,
    (main w module).2 = describe_call p :: ext ∧
    Forall (λ c, c = describe_call p ∨ c = Sleep (delay p)) ext ∧
    (describes_so_far ext ≤ Z.to_nat (repeat p))%nat ∧
    (sleeps ext ≤ S (Z.to_nat (repeat p)))%nat.
Proof.
  intros p Hstate.
  assert (∃ ext : list call,
            ext = [] ∧
            Forall (λ c, c = describe_call p ∨ c = Sleep (delay p)) ext ∧
            (describes_so_far ext ≤ Z.to_nat (repeat p))%nat ∧
            (sleeps ext ≤ S (Z.to_nat (repeat p)))%nat) as (none & -> & Hnone).
  { eexists. split; [done|]. repeat split; [constructor|..].
    - change (describes_so_far []) with 0. lia.
    - change (sleeps []) with 0. lia. }
  destruct (fetched w p 0) as [existing|e] eqn:Hfetch.
  - rewrite (main_fetched _ _ _ Hfetch), conclude_log. unfold in_state. fold p.
    rewrite Hstate. unfold state_deleting. fold p.
    destruct (negb _); [by eexists|].
    rewrite run_bind. unfold sleep.
    destruct (delay p <? 0)%Z; [by eexists|]. rewrite run_remote. simpl.
    rewrite run_bind.
    destruct (poll_log w p (range (repeat p)) None no_results
                [describe_call p; Sleep (delay p)])
      as (ext & Hlog & Hext & Hdescribes & Hsleeps).
    rewrite range_length in Hdescribes, Hsleeps.
    exists (Sleep (delay p) :: ext).
    split; [|repeat split].
    + destruct (poll _ _ _ _ _ _) as [[o|[[i|] results]] log'];
        simpl in Hlog; subst log'; try done.
      by destruct (int_is _ _).
    + constructor; [by right|done].
    + change (Sleep (delay p) :: ext) with ([Sleep (delay p)] ++ ext)%list.
      rewrite describes_so_far_app. change (describes_so_far [_]) with 0. lia.
    + change (Sleep (delay p) :: ext) with ([Sleep (delay p)] ++ ext)%list.
      rewrite sleeps_app. change (sleeps [_]) with 1. lia.
  - rewrite (main_fetch_failed _ _ _ Hfetch). by eexists.
Qed.

Lemma deleting_only_polls_and_sleeps_witness :
  ∃ ext : list call,
    (main (Sample.draining_until 3) (Sample.run deleting None None 10 false)).2 =
      describe_call (Sample.spec deleting None None 10) :: ext ∧
    Forall (λ c, c = describe_call (Sample.spec deleting None None 10) ∨
                 c = Sleep 5) ext ∧
    (describes_so_far ext ≤ 10)%nat ∧
    (sleeps ext ≤ 11)%nat.
Proof.
  apply (deleting_only_polls_and_sleeps (Sample.draining_until 3)
           (Sample.run deleting None None 10 false)).
  reflexivity.
Defined.

(** ** What changed=false stands for *)

Lemma stays_ret {A : Type} (a : A) : stays (mret a).
Proof. by intros log r. Qed.

Lemma stays_raise {A : Type} (e : exception) : stays (@raise A e).
Proof. by intros log r. Qed.

Lemma stays_fail_json {A : Type} (msg : string) : stays (@fail_json A msg).
Proof. by intros log r. Qed.

Lemma stays_lift {A : Type} (x : except A) : stays (lift x).
Proof. by destruct x. Qed.

Lemma stays_remote {A : Type} (c : call) (answer : except A) :
  stays (remote c answer).
Proof. intros log r. rewrite run_remote. by destruct answer. Qed.

Lemma stays_bind {A B : Type} (m : M A) (f : A → M B) :
  stays m → (∀ x, stays (f x)) → stays (m ≫= f).
Proof.
  intros Hm Hf log r. rewrite run_bind. specialize (Hm log r).
  destruct (m log) as [[o|x] log']; simpl in *; [congruence|apply Hf].
Qed.

Lemma stays_classify (w : world) (p : Params) (existing : option dict)
    (results : Results) :
  stays (classify w p existing results).
Proof.
  unfold classify. destruct existing as [found|]; [|apply stays_ret].
  destruct (_ && _); [|apply stays_ret].
  apply stays_bind; [apply stays_lift|]. intros [|]; [|apply stays_ret].
  apply stays_bind; [apply stays_lift|]. intros ?. apply stays_ret.
Qed.

Lemma stays_update_or_create (w : world) (p : Params) (update : bool) :
  stays (update_or_create w p update).
Proof.
  unfold update_or_create. destruct update.
  - unfold update_service. apply stays_bind; [apply stays_remote|].
    intros ?. apply stays_lift.
  - apply stays_bind.
    { destruct (bool_decide _); [apply stays_fail_json | apply stays_ret]. }
    intros _. apply stays_bind.
    { destruct (bool_decide _); [apply stays_fail_json | apply stays_ret]. }
    intros _. unfold create_service. apply stays_bind; [apply stays_remote|].
    intros ?. apply stays_lift.
Qed.

(** state=present: a result with changed=false comes with an untouched log,
    and the branch never exits by itself. *)
Lemma state_present_unchanged (w : world) (module : AnsibleModule)
    (existing : option dict) (log : list call) :
  match state_present w module existing no_results log with
  | (inr r, log') => changed r = false → log' = log
  | (inl (ExitJson _), _) => False
  | _ => True
  end.
Proof.
  unfold state_present. rewrite run_bind.
  destruct (adds_classify (λ _, True) w (params module) existing no_results log)
    as (ext & Hlog & _ & Hlen).
  pose proof (stays_classify w (params module) existing no_results log) as Hstay.
  destruct (classify _ _ _ _ _) as [[o|[[matching update] r']] log'];
    simpl in Hlog, Hstay; subst log'.
  { destruct o; [by destruct (Hstay r)|done..]. }
  destruct ext; [|simpl in Hlen; lia]. rewrite app_nil_r.
  destruct matching; simpl; [done|].
  rewrite run_bind.
  destruct (negb (check_mode module)); simpl; [|done].
  rewrite run_bind.
  pose proof (stays_update_or_create w (params module) update log) as Hstay'.
  destruct (update_or_create _ _ _ _) as [[o|response] log']; simpl in *; [|done].
  destruct o; [by destruct (Hstay' r)|done..].
Qed.

Lemma state_absent_unchanged (w : world) (module : AnsibleModule)
    (existing : option dict) (log : list call) :
  match state_absent w module existing no_results log with
  | (inr r, log') => changed r = false → log' = log
  | (inl (ExitJson _), _) => False
  | _ => True
  end.
Proof.
  unfold state_absent. destruct existing as [found|]; [|done].
  destruct (negb _); [done|].
  rewrite run_bind, run_lift.
  destruct (py_delitem found "deployments") as [found1|e]; simpl; [|done].
  rewrite run_bind, run_lift.
  destruct (py_delitem found1 "events") as [found2|e]; simpl; [|done].
  destruct (status_is _ _); [done|]. rewrite run_bind.
  destruct (negb (check_mode module)); simpl; [|done].
  unfold try_except, delete_service. rewrite run_remote.
  destruct (ecs_delete_service w _) as [[]|e]; simpl; [done|].
  by destruct (is_ClientError e).
Qed.

Lemma appends_state_deleting (w : world) (module : AnsibleModule)
    (existing : option dict) (results : Results) :
  appends quiet (state_deleting w module existing results).
Proof.
  unfold state_deleting. destruct (negb _); [apply appends_fail_json|].
  apply appends_bind; [by apply appends_sleep|]. intros _.
  apply appends_bind; [apply appends_poll|]. intros [[i|] results'].
  - destruct (int_is _ _); [apply appends_fail_json | apply appends_ret].
  - apply appends_raise.
Qed.

(** X24.  A run never reports changed=false after a mutation: whenever
    [main] exits through [exit_json] with changed=false, in any state and
    whatever the remote answered, its log holds no create, update or
    delete. *)
Theorem unchanged_means_untouched (w : world) (module : AnsibleModule)
    (r : Results) :
  (main w module).1 = ExitJson r →
  changed r = false →
  Forall quiet (main w module).2.
Proof.
  destruct (fetched w (params module) 0) as [existing|e] eqn:Hfetch.
  - rewrite (main_fetched _ _ _ Hfetch). unfold in_state.
    destruct (state (params module)).
    + pose proof (state_present_unchanged w module existing
                    [describe_call (params module)]) as H.
      destruct (state_present _ _ _ _ _) as [[o|r'] log']; simpl.
      * destruct o; [done|done..].
      * intros [= ->] Hchanged. rewrite (H Hchanged). by apply Forall_singleton.
    + pose proof (state_absent_unchanged w module existing
                    [describe_call (params module)]) as H.
      destruct (state_absent _ _ _ _ _) as [[o|r'] log']; simpl.
      * destruct o; [done|done..].
      * intros [= ->] Hchanged. rewrite (H Hchanged). by apply Forall_singleton.
    + intros _ _. rewrite conclude_log.
      destruct (appends_state_deleting w module existing no_results
                  [describe_call (params module)]) as (ext & -> & Hext).
      apply Forall_cons. split; [done|apply Hext].
  - by rewrite (main_fetch_failed _ _ _ Hfetch).
Qed.

Lemma unchanged_means_untouched_witness :
  Forall quiet
    (main (Sample.steady "INACTIVE") (Sample.run absent None None 10 false)).2.
Proof.
  apply (unchanged_means_untouched (Sample.steady "INACTIVE")
           (Sample.run absent None None 10 false)
           {| changed := false; service := None;
              ansible_facts :=
                Some (delete "events"
                        (delete "deployments" (Sample.web "INACTIVE"))) |});
    reflexivity.
Defined.

(** X25.  Every run, in any state and mode, begins with one describe call
    that asks for exactly the named service, and names the cluster exactly
    when one is given. *)
Theorem every_run_describes_first (w : world) (module : AnsibleModule) :
  let p := params module in
  ∃ (kwargs : dict) (rest : list call),
    (main w module).2 = DescribeServices kwargs :: rest ∧
    kwargs !! "services" = Some (VList [VStr (name p)]) ∧
    kwargs !! "cluster" = VStr <$> cluster p ∧
    ∀ k, k ≠ "services" → k ≠ "cluster" → kwargs !! k = None.
Proof.
  intros p. exists (describe_args (cluster p) (name p)).
  assert (∃ rest, (main w module).2 = describe_call p :: rest) as [rest Hrest].
  { destruct (fetched w p 0) as [existing|e] eqn:Hfetch.
    - rewrite (main_fetched _ _ _ Hfetch), conclude_log. unfold in_state. fold p.
      destruct (state p).
      + destruct (adds_state_present w module existing no_results [describe_call p])
          as (ext & -> & _). by exists ext.
      + destruct (adds_state_absent w module existing no_results [describe_call p])
          as (ext & -> & _). by exists ext.
      + destruct (appends_state_deleting w module existing no_results
                    [describe_call p]) as (ext & -> & _). by exists ext.
    - rewrite (main_fetch_failed _ _ _ Hfetch). by exists []. }
  exists rest. split; [done|].
  unfold describe_args, update_if_given.
  destruct (cluster p); simpl; repeat split; try by simplify_map_eq.
  - intros k Hs Hc. rewrite lookup_insert_ne by done.
    by apply lookup_singleton_ne.
  - intros k Hs Hc. by apply lookup_singleton_ne.
Qed.
